(** * nuclear_aesthetic_mcp: taxonomy lookup, composition and description matching

    A shallow embedding of [nuclear_aesthetic_mcp.py].

    Modelling conventions.
    - Python [str] is [string], the UTF-8 bytes of the text; literal
      containment and prefix tests on the bytes are those on the characters.
    - [str.lower] is [PyStr.lower] on ASCII text, where it only maps
      ['A'..'Z'] to ['a'..'z'].  For text of any kind the functions that
      lower-case are given again in [Module Unicode], with [str.lower] as the
      parameter [str_lower], of which [lowers_ascii] records what it does on
      ASCII text.
    - A Python [dict] is an association list in insertion order
      ([json.dumps] and [dict.items] both expose that order).
    - The cells of the taxonomy tables are strings, [None], or a pair of
      integers; they are the type [cell].  Values assembled for the caller
      are the nested type [pyobj].
    - A Python exception is a [Raise] in the [result] monad.
    - The tools return [json.dumps(output, indent=2)]; the embedding stops at
      [output], the object handed to the serialiser.
    - The input models are the pydantic objects after validation. *)

From Stdlib Require Import String Ascii List ZArith Bool Lia.
From Stdlib Require Import DecimalString Permutation Sorted.
Import ListNotations.
Local Open Scope string_scope.
Local Open Scope list_scope.

(* ================================================================== *)
(** ** Exceptions *)
(* ================================================================== *)

Inductive exn : Type := KeyError | TypeError | IndexError.

Inductive result (A : Type) : Type :=
| Ok (a : A)
| Raise (e : exn).
Arguments Ok {A} a.
Arguments Raise {A} e.

Definition bind {A B : Type} (r : result A) (k : A -> result B) : result B :=
  match r with
  | Ok a => k a
  | Raise e => Raise e
  end.

Notation "x <- r ;; k" := (bind r (fun x => k))
  (at level 61, r at next level, right associativity).

(* ================================================================== *)
(** ** Python strings *)
(* ================================================================== *)

Module PyStr.

(** [c.lower()] on one ASCII character. *)
Definition lower_char (c : ascii) : ascii :=
  let n := nat_of_ascii c in
  if (65 <=? n)%nat && (n <=? 90)%nat then ascii_of_nat (n + 32) else c.

(** [s.lower()] *)
Fixpoint lower (s : string) : string :=
  match s with
  | EmptyString => EmptyString
  | String c s' => String (lower_char c) (lower s')
  end.

(** [s.startswith(p)] *)
Definition startswith (s p : string) : bool := String.prefix p s.

(** [needle in hay] : literal substring containment. *)
Fixpoint contains (hay needle : string) : bool :=
  match hay with
  | EmptyString => String.prefix needle EmptyString
  | String _ hay' => String.prefix needle hay || contains hay' needle
  end.

(** [bool(s)] *)
Definition truthy (s : string) : bool :=
  match s with EmptyString => false | _ => true end.

(** [sep.join(l)] *)
Definition join (sep : string) (l : list string) : string :=
  String.concat sep l.

(** [str(n)] for an integer. *)
Definition of_Z (n : Z) : string := NilZero.string_of_int (Z.to_int n).

End PyStr.

(* ================================================================== *)
(** ** Dictionaries *)
(* ================================================================== *)

Definition dict (V : Type) : Type := list (string * V).

Section Dict.
Context {V : Type}.

(** The value bound to [k], if any. *)
Fixpoint dict_lookup (k : string) (d : dict V) : option V :=
  match d with
  | [] => None
  | (k', v) :: d' => if String.eqb k k' then Some v else dict_lookup k d'
  end.

(** [d.get(k, dflt)] *)
Definition dict_get_or (d : dict V) (k : string) (dflt : V) : V :=
  match dict_lookup k d with
  | Some v => v
  | None => dflt
  end.

(** [d[k]] *)
Definition dict_item (d : dict V) (k : string) : result V :=
  match dict_lookup k d with
  | Some v => Ok v
  | None => Raise KeyError
  end.

(** [d[k] = v] : an existing key keeps its position, a new one goes last. *)
Fixpoint dict_set (k : string) (v : V) (d : dict V) : dict V :=
  match d with
  | [] => [(k, v)]
  | (k', v') :: d' =>
      if String.eqb k k' then (k', v) :: d' else (k', v') :: dict_set k v d'
  end.

(** [list(d.keys())] *)
Definition dict_keys (d : dict V) : list string := map fst d.

(** [bool(d)] *)
Definition dict_truthy (d : dict V) : bool :=
  match d with [] => false | _ => true end.

End Dict.

(* ================================================================== *)
(** ** Table cells and assembled objects *)
(* ================================================================== *)

(** What a taxonomy record holds under one key. *)
Inductive cell : Type :=
| CNone
| CStr (s : string)
| CRange (lo hi : Z).

Definition record : Type := dict cell.

(** [d.get(k)] *)
Definition dict_get (d : record) (k : string) : cell := dict_get_or d k CNone.

(** [f"{c}"] *)
Definition cell_str (c : cell) : string :=
  match c with
  | CNone => "None"
  | CStr s => s
  | CRange lo hi => "(" ++ PyStr.of_Z lo ++ ", " ++ PyStr.of_Z hi ++ ")"
  end.

Definition cell_eqb (a b : cell) : bool :=
  match a, b with
  | CNone, CNone => true
  | CStr s, CStr t => String.eqb s t
  | CRange l h, CRange l' h' => Z.eqb l l' && Z.eqb h h'
  | _, _ => false
  end.

#[local] Set Warnings "-register-all".
Inductive pyobj : Type :=
| PNone
| PStr (s : string)
| PInt (n : Z)
| PTuple (xs : list pyobj)
| PList (xs : list pyobj)
| PDict (kvs : list (string * pyobj)).

Definition of_cell (c : cell) : pyobj :=
  match c with
  | CNone => PNone
  | CStr s => PStr s
  | CRange lo hi => PTuple [PInt lo; PInt hi]
  end.

Definition of_record (r : record) : pyobj :=
  PDict (map (fun kv => (fst kv, of_cell (snd kv))) r).

Definition of_strings (l : list string) : pyobj := PList (map PStr l).

(** [c[i]] for [i] in [{0, 1}].  A string cell is subscripted byte by
    byte, which is character by character on an ASCII string. *)
Definition cell_item (c : cell) (i : nat) : result pyobj :=
  match c with
  | CNone => Raise TypeError
  | CStr s =>
      match String.get i s with
      | Some ch => Ok (PStr (String ch EmptyString))
      | None => Raise IndexError
      end
  | CRange lo hi =>
      match i with
      | 0 => Ok (PInt lo)
      | 1 => Ok (PInt hi)
      | _ => Raise IndexError
      end
  end.

(** [o[k]] on an assembled object. *)
Definition obj_item (o : pyobj) (k : string) : result pyobj :=
  match o with
  | PDict kvs => dict_item kvs k
  | _ => Raise TypeError
  end.

(** [o[k] = v] *)
Definition obj_set (o : pyobj) (k : string) (v : pyobj) : result pyobj :=
  match o with
  | PDict kvs => Ok (PDict (dict_set k v kvs))
  | _ => Raise TypeError
  end.

(** [o[k1][k2] = v] *)
Definition obj_set2 (o : pyobj) (k1 k2 : string) (v : pyobj) : result pyobj :=
  inner <- obj_item o k1 ;;
  inner' <- obj_set inner k2 v ;;
  obj_set o k1 inner'.

(** The keys of an assembled dictionary ([[]] for any other object). *)
Definition obj_keys (o : pyobj) : list string :=
  match o with
  | PDict kvs => dict_keys kvs
  | _ => []
  end.

(* ================================================================== *)
(** ** Enumerations *)
(* ================================================================== *)

(** Primary axis: the temporal-morphological coupling. *)
Inductive PhaseForm : Type :=
| INITIATION_RADIANT_POINT
| INITIATION_THERMAL_BLOOM
| FIREBALL_PLASMA_CORE
| FIREBALL_SURFACE_INSTABILITY
| FIREBALL_EXPANSION_FRONT
| SHOCK_COMPRESSION_DISC
| SHOCK_MACH_STEM
| SHOCK_WILSON_CLOUD
| RISE_VORTEX_STEM
| RISE_TOROIDAL_ROLL
| RISE_CAULIFLOWER_CAP
| DISPERSAL_COLUMN_COLLAPSE
| DISPERSAL_ANVIL_SPREAD
| DISPERSAL_FALLOUT_PLUME.

Inductive Scale : Type := TACTICAL | STRATEGIC | THERMONUCLEAR.

Inductive Environment : Type :=
  SURFACE | AIRBURST | UNDERWATER | SPACE | UNDERGROUND.

Inductive Era : Type := TRINITY | PACIFIC | NEVADA | MODERN.

Inductive Affect : Type :=
  SUBLIME | TERRIBLE | CLINICAL | MELANCHOLIC | ANXIOUS | SACRED_PROFANE.

(** A string-backed [Enum]: the members in declaration order (what iterating
    the class yields) and each member's [.value]. *)
Class StrEnum (E : Type) : Type := {
  members : list E;
  value : E -> string
}.

#[export] Instance PhaseForm_enum : StrEnum PhaseForm := {|
  members :=
    [ INITIATION_RADIANT_POINT; INITIATION_THERMAL_BLOOM;
      FIREBALL_PLASMA_CORE; FIREBALL_SURFACE_INSTABILITY;
      FIREBALL_EXPANSION_FRONT;
      SHOCK_COMPRESSION_DISC; SHOCK_MACH_STEM; SHOCK_WILSON_CLOUD;
      RISE_VORTEX_STEM; RISE_TOROIDAL_ROLL; RISE_CAULIFLOWER_CAP;
      DISPERSAL_COLUMN_COLLAPSE; DISPERSAL_ANVIL_SPREAD;
      DISPERSAL_FALLOUT_PLUME ];
  value p :=
    match p with
    | INITIATION_RADIANT_POINT => "initiation.radiant_point"
    | INITIATION_THERMAL_BLOOM => "initiation.thermal_bloom"
    | FIREBALL_PLASMA_CORE => "fireball.plasma_core"
    | FIREBALL_SURFACE_INSTABILITY => "fireball.surface_instability"
    | FIREBALL_EXPANSION_FRONT => "fireball.expansion_front"
    | SHOCK_COMPRESSION_DISC => "shock.compression_disc"
    | SHOCK_MACH_STEM => "shock.mach_stem"
    | SHOCK_WILSON_CLOUD => "shock.wilson_cloud"
    | RISE_VORTEX_STEM => "rise.vortex_stem"
    | RISE_TOROIDAL_ROLL => "rise.toroidal_roll"
    | RISE_CAULIFLOWER_CAP => "rise.cauliflower_cap"
    | DISPERSAL_COLUMN_COLLAPSE => "dispersal.column_collapse"
    | DISPERSAL_ANVIL_SPREAD => "dispersal.anvil_spread"
    | DISPERSAL_FALLOUT_PLUME => "dispersal.fallout_plume"
    end
|}.

#[export] Instance Scale_enum : StrEnum Scale := {|
  members := [TACTICAL; STRATEGIC; THERMONUCLEAR];
  value s :=
    match s with
    | TACTICAL => "tactical"
    | STRATEGIC => "strategic"
    | THERMONUCLEAR => "thermonuclear"
    end
|}.

#[export] Instance Environment_enum : StrEnum Environment := {|
  members := [SURFACE; AIRBURST; UNDERWATER; SPACE; UNDERGROUND];
  value e :=
    match e with
    | SURFACE => "surface"
    | AIRBURST => "airburst"
    | UNDERWATER => "underwater"
    | SPACE => "space"
    | UNDERGROUND => "underground"
    end
|}.

#[export] Instance Era_enum : StrEnum Era := {|
  members := [TRINITY; PACIFIC; NEVADA; MODERN];
  value e :=
    match e with
    | TRINITY => "trinity"
    | PACIFIC => "pacific"
    | NEVADA => "nevada"
    | MODERN => "modern"
    end
|}.

#[export] Instance Affect_enum : StrEnum Affect := {|
  members := [SUBLIME; TERRIBLE; CLINICAL; MELANCHOLIC; ANXIOUS; SACRED_PROFANE];
  value a :=
    match a with
    | SUBLIME => "sublime"
    | TERRIBLE => "terrible"
    | CLINICAL => "clinical"
    | MELANCHOLIC => "melancholic"
    | ANXIOUS => "anxious"
    | SACRED_PROFANE => "sacred_profane"
    end
|}.

(** [bool(m)] for an optional member of a [str]-mixed enum: [None] is false,
    a member follows the rule of [str]. *)
Definition member_truthy {E : Type} `{StrEnum E} (m : option E) : bool :=
  match m with
  | None => false
  | Some e => PyStr.truthy (value e)
  end.

(* ================================================================== *)
(** ** Taxonomy tables *)
(* ================================================================== *)

(** What each PhaseForm brings bundled. *)
Definition PHASEFORM_INTRINSICS : dict record :=
  [ ("initiation.radiant_point",
     [ ("luminous_regime", CStr "thermal_bloom");
       ("color_temperature_k", CRange 15000 50000);
       ("luminosity", CStr "extreme_overexposure");
       ("form", CStr "point_source_expanding");
       ("duration_reference", CStr "sub-microsecond");
       ("atmospheric_state", CStr "pre-interaction");
       ("key_visual", CStr "pure white point, corona forming");
       ("contrast", CStr "infinite_to_environment") ]);
    ("initiation.thermal_bloom",
     [ ("luminous_regime", CStr "thermal_bloom");
       ("color_temperature_k", CRange 8000 15000);
       ("luminosity", CStr "total_overexposure");
       ("form", CStr "expanding_sphere_undifferentiated");
       ("duration_reference", CStr "microseconds");
       ("atmospheric_state", CStr "vacuum_formation");
       ("key_visual", CStr "white sphere consuming frame, no detail");
       ("contrast", CStr "blown_highlights") ]);
    ("fireball.plasma_core",
     [ ("luminous_regime", CStr "incandescence");
       ("color_temperature_k", CRange 5000 8000);
       ("luminosity", CStr "self_illuminated_bright");
       ("form", CStr "sphere_with_internal_structure");
       ("duration_reference", CStr "early_milliseconds");
       ("atmospheric_state", CStr "plasma_boundary");
       ("key_visual", CStr "orange-white sphere, hints of internal convection");
       ("contrast", CStr "high_dynamic_range") ]);
    ("fireball.surface_instability",
     [ ("luminous_regime", CStr "incandescence");
       ("color_temperature_k", CRange 4000 6000);
       ("luminosity", CStr "self_illuminated");
       ("form", CStr "sphere_with_surface_perturbations");
       ("duration_reference", CStr "milliseconds");
       ("atmospheric_state", CStr "plasma_atmosphere_interface");
       ("key_visual", CStr "mottled surface, rope tricks, guy-wire vaporization");
       ("contrast", CStr "texture_visible") ]);
    ("fireball.expansion_front",
     [ ("luminous_regime", CStr "incandescence_fading");
       ("color_temperature_k", CRange 3000 5000);
       ("luminosity", CStr "bright_but_structured");
       ("form", CStr "sphere_cooling_at_edges");
       ("duration_reference", CStr "late_milliseconds");
       ("atmospheric_state", CStr "shock_detaching");
       ("key_visual", CStr "orange core, darker cooling edges, shock separating");
       ("contrast", CStr "medium_high") ]);
    ("shock.compression_disc",
     [ ("luminous_regime", CStr "reflected_flash");
       ("color_temperature_k", CRange 5500 7000);
       ("luminosity", CStr "medium_reflected");
       ("form", CStr "toroidal_compression_wave");
       ("duration_reference", CStr "seconds");
       ("atmospheric_state", CStr "compression_haze");
       ("key_visual", CStr "visible ring of compressed air, refraction effects");
       ("contrast", CStr "subtle_atmospheric") ]);
    ("shock.mach_stem",
     [ ("luminous_regime", CStr "reflected_flash");
       ("color_temperature_k", CRange 5000 6000);
       ("luminosity", CStr "ground_reflection");
       ("form", CStr "conical_ground_interaction");
       ("duration_reference", CStr "seconds");
       ("atmospheric_state", CStr "dust_entrainment");
       ("key_visual", CStr "dust skirt rising, ground shock visible, debris curtain");
       ("contrast", CStr "environmental") ]);
    ("shock.wilson_cloud",
     [ ("luminous_regime", CStr "ambient_reflected");
       ("color_temperature_k", CRange 5500 6500);
       ("luminosity", CStr "atmospheric_scatter");
       ("form", CStr "condensation_disc_or_dome");
       ("duration_reference", CStr "seconds");
       ("atmospheric_state", CStr "condensation");
       ("key_visual", CStr "white vapor ring/dome, eerie transient cloud");
       ("contrast", CStr "soft_ethereal") ]);
    ("rise.vortex_stem",
     [ ("luminous_regime", CStr "self_illuminated_fading");
       ("color_temperature_k", CRange 2500 4000);
       ("luminosity", CStr "internal_glow");
       ("form", CStr "columnar_with_internal_vortices");
       ("duration_reference", CStr "tens_of_seconds");
       ("atmospheric_state", CStr "particulate_dense");
       ("key_visual", CStr "rising column, internal fire visible, debris entrainment");
       ("contrast", CStr "dramatic_chiaroscuro") ]);
    ("rise.toroidal_roll",
     [ ("luminous_regime", CStr "mixed_internal_ambient");
       ("color_temperature_k", CRange 2000 3500);
       ("luminosity", CStr "diminishing_internal");
       ("form", CStr "toroidal_vortex_ring");
       ("duration_reference", CStr "minute");
       ("atmospheric_state", CStr "turbulent_mixing");
       ("key_visual", CStr "mushroom cap forming, rolling edges, vortex visible");
       ("contrast", CStr "sculptural") ]);
    ("rise.cauliflower_cap",
     [ ("luminous_regime", CStr "ambient_dominant");
       ("color_temperature_k", CRange 5500 6500);
       ("luminosity", CStr "externally_lit");
       ("form", CStr "fractal_turbulent_mass");
       ("duration_reference", CStr "minutes");
       ("atmospheric_state", CStr "particulate_cloud");
       ("key_visual", CStr "baroque complexity, fractal edges, monumental scale");
       ("contrast", CStr "cloud_like") ]);
    ("dispersal.column_collapse",
     [ ("luminous_regime", CStr "ambient");
       ("color_temperature_k", CRange 5500 6500);
       ("luminosity", CStr "daylight");
       ("form", CStr "collapsing_vertical_structure");
       ("duration_reference", CStr "minutes");
       ("atmospheric_state", CStr "settling_particulate");
       ("key_visual", CStr "stem losing coherence, material falling back");
       ("contrast", CStr "naturalistic") ]);
    ("dispersal.anvil_spread",
     [ ("luminous_regime", CStr "ambient");
       ("color_temperature_k", CRange 5500 7000);
       ("luminosity", CStr "atmospheric");
       ("form", CStr "horizontal_spreading_layer");
       ("duration_reference", CStr "tens_of_minutes");
       ("atmospheric_state", CStr "stratospheric_injection");
       ("key_visual", CStr "cap spreading horizontally, anvil formation");
       ("contrast", CStr "high_altitude_clarity") ]);
    ("dispersal.fallout_plume",
     [ ("luminous_regime", CStr "ambient");
       ("color_temperature_k", CRange 5000 6000);
       ("luminosity", CStr "hazy");
       ("form", CStr "drifting_particulate_mass");
       ("duration_reference", CStr "hours");
       ("atmospheric_state", CStr "dispersed_contamination");
       ("key_visual", CStr "smeared across sky, ominous drift, entropic decay");
       ("contrast", CStr "low_atmospheric") ]) ].

(** Yield scale: rate of evolution and proportions. *)
Definition SCALE_MODIFIERS : dict record :=
  [ ("tactical",
     [ ("evolution_rate", CStr "fast");
       ("vertical_development", CStr "limited");
       ("proportions", CStr "compact");
       ("detail_scale", CStr "human_reference_visible");
       ("color_shift", CNone) ]);
    ("strategic",
     [ ("evolution_rate", CStr "canonical");
       ("vertical_development", CStr "substantial");
       ("proportions", CStr "classical_mushroom");
       ("detail_scale", CStr "landscape_dwarfing");
       ("color_shift", CNone) ]);
    ("thermonuclear",
     [ ("evolution_rate", CStr "slow_majestic");
       ("vertical_development", CStr "extreme");
       ("proportions", CStr "towering_multi_stage");
       ("detail_scale", CStr "horizon_spanning");
       ("color_shift", CStr "secondary_staging_visible") ]) ].

(** Detonation environment: interaction with the medium. *)
Definition ENVIRONMENT_MODIFIERS : dict record :=
  [ ("surface",
     [ ("ground_interaction", CStr "crater_formation");
       ("debris_character", CStr "earth_rock_heavy");
       ("stem_appearance", CStr "dirty_debris_laden");
       ("atmospheric_effect", CStr "dust_dominant");
       ("color_influence", CStr "earth_tones_mixed") ]);
    ("airburst",
     [ ("ground_interaction", CStr "minimal_delayed");
       ("debris_character", CStr "atmospheric_only");
       ("stem_appearance", CStr "clean_plasma");
       ("atmospheric_effect", CStr "pure_shock_effects");
       ("color_influence", CStr "clean_plasma_colors") ]);
    ("underwater",
     [ ("ground_interaction", CStr "water_column");
       ("debris_character", CStr "spray_and_steam");
       ("stem_appearance", CStr "wilson_column_dominant");
       ("atmospheric_effect", CStr "massive_steam_cauliflower");
       ("color_influence", CStr "white_steam_blue_water") ]);
    ("space",
     [ ("ground_interaction", CStr "none");
       ("debris_character", CStr "none");
       ("stem_appearance", CStr "pure_plasma_sphere_only");
       ("atmospheric_effect", CStr "none_pure_expansion");
       ("color_influence", CStr "unfiltered_plasma_spectrum") ]);
    ("underground",
     [ ("ground_interaction", CStr "contained_venting");
       ("debris_character", CStr "subsidence_crater");
       ("stem_appearance", CStr "vent_plumes_only");
       ("atmospheric_effect", CStr "localized_dust_jets");
       ("color_influence", CStr "earth_tones_dominant") ]) ].

(** Historical era: capture aesthetics and colour science. *)
Definition ERA_MODIFIERS : dict record :=
  [ ("trinity",
     [ ("color_science", CStr "sepia_monochrome");
       ("grain_structure", CStr "heavy_film_grain");
       ("camera_characteristics", CStr "static_distant_tripod");
       ("frame_quality", CStr "historical_degraded");
       ("aspect_ratio", CStr "academic_4x3") ]);
    ("pacific",
     [ ("color_science", CStr "kodachrome_saturated");
       ("grain_structure", CStr "medium_film_grain");
       ("camera_characteristics", CStr "naval_observation");
       ("frame_quality", CStr "military_documentary");
       ("aspect_ratio", CStr "widescreen_naval") ]);
    ("nevada",
     [ ("color_science", CStr "desert_warm_tones");
       ("grain_structure", CStr "newsreel_grain");
       ("camera_characteristics", CStr "bunker_observation");
       ("frame_quality", CStr "civil_defense_documentary");
       ("aspect_ratio", CStr "television_4x3") ]);
    ("modern",
     [ ("color_science", CStr "digital_clean");
       ("grain_structure", CStr "none_or_artificial");
       ("camera_characteristics", CStr "impossible_angles");
       ("frame_quality", CStr "pristine_cgi");
       ("aspect_ratio", CStr "cinematic_wide") ]) ].

(** Affective intent: framing, emphasis, emotional register. *)
Definition AFFECT_MODIFIERS : dict record :=
  [ ("sublime",
     [ ("framing", CStr "emphasize_vertical_scale");
       ("composition", CStr "human_absence_or_dwarfed");
       ("lighting_emphasis", CStr "luminous_extremes");
       ("emotional_register", CStr "overwhelming_awe");
       ("detail_focus", CStr "totality_over_detail") ]);
    ("terrible",
     [ ("framing", CStr "destruction_vectors_visible");
       ("composition", CStr "before_after_implied");
       ("lighting_emphasis", CStr "harsh_revealing");
       ("emotional_register", CStr "horror_power");
       ("detail_focus", CStr "shock_effects_debris") ]);
    ("clinical",
     [ ("framing", CStr "documentary_centered");
       ("composition", CStr "measurement_reference");
       ("lighting_emphasis", CStr "neutral_informative");
       ("emotional_register", CStr "detached_scientific");
       ("detail_focus", CStr "phase_identification") ]);
    ("melancholic",
     [ ("framing", CStr "aftermath_emphasis");
       ("composition", CStr "entropy_visible");
       ("lighting_emphasis", CStr "fading_diffuse");
       ("emotional_register", CStr "sorrow_contemplation");
       ("detail_focus", CStr "decay_dispersal") ]);
    ("anxious",
     [ ("framing", CStr "anticipation_moment_before");
       ("composition", CStr "tension_building");
       ("lighting_emphasis", CStr "pre_flash_stillness");
       ("emotional_register", CStr "dread_waiting");
       ("detail_focus", CStr "countdown_infrastructure") ]);
    ("sacred_profane",
     [ ("framing", CStr "altar_like_monumentality");
       ("composition", CStr "beauty_horror_tension");
       ("lighting_emphasis", CStr "transcendent_terrible");
       ("emotional_register", CStr "ambivalent_awe");
       ("detail_focus", CStr "simultaneous_beauty_destruction") ]) ].
(* ================================================================== *)
(** ** Input models *)
(* ================================================================== *)

(** [EnhanceNuclearAestheticInput], after validation.  The four modifiers
    are [Optional[...]] fields. *)
Record EnhanceNuclearAestheticInput : Type := {
  prompt : string;
  phase_form : PhaseForm;
  scale : option Scale;
  environment : option Environment;
  era : option Era;
  affect : option Affect
}.

(** How a caller presents an optional field: left out, or given (possibly
    as an explicit null). *)
Inductive supplied (A : Type) : Type :=
| Omitted
| Given (v : option A).
Arguments Omitted {A}.
Arguments Given {A} v.

(** [Field(default=dflt)] : the default only stands in for a field that was
    left out. *)
Definition field_value {A : Type} (dflt : option A) (s : supplied A) : option A :=
  match s with
  | Omitted => dflt
  | Given v => v
  end.

Definition scale_default : option Scale := Some STRATEGIC.
Definition environment_default : option Environment := Some AIRBURST.
Definition era_default : option Era := None.
Definition affect_default : option Affect := None.

(** The validated model for a request, modifier fields resolved against
    their declared defaults. *)
Definition make_input (text : string) (pf : PhaseForm)
    (s : supplied Scale) (e : supplied Environment)
    (r : supplied Era) (a : supplied Affect) : EnhanceNuclearAestheticInput :=
  {| prompt := text;
     phase_form := pf;
     scale := field_value scale_default s;
     environment := field_value environment_default e;
     era := field_value era_default r;
     affect := field_value affect_default a |}.

(** [ListPhaseFormsInput] *)
Record ListPhaseFormsInput : Type := {
  phase_filter : option string
}.

(* ================================================================== *)
(** ** Helper functions *)
(* ================================================================== *)

(** [bool(m)] for an optional record: [None] and [{}] are both false. *)
Definition mods_truthy (m : option record) : bool :=
  match m with
  | None => false
  | Some d => dict_truthy d
  end.

(** [m.get(k)] under a guard that established [m] is a non-empty record. *)
Definition mods_get (m : option record) (k : string) : cell :=
  match m with
  | None => CNone
  | Some d => dict_get d k
  end.

Definition mods_obj (m : option record) : pyobj :=
  match m with
  | None => PNone
  | Some d => of_record d
  end.

(** Assemble the complete enhancement output structure. *)
Definition build_enhancement_output
    (prompt phase_form : string)
    (intrinsics scale_mods env_mods : record)
    (era_mods affect_mods : option record) : result pyobj :=
  let temp_range :=
    dict_get_or intrinsics "color_temperature_k" (CRange 5500 6500) in
  tmin <- cell_item temp_range 0 ;;
  tmax <- cell_item temp_range 1 ;;
  let output :=
    PDict
      [ ("original_prompt", PStr prompt);
        ("phase_form", PStr phase_form);
        ("enhanced_prompt_elements", PList []);
        ("visual_parameters",
         PDict
           [ ("luminous",
              PDict
                [ ("regime", of_cell (dict_get intrinsics "luminous_regime"));
                  ("color_temperature_k",
                   PDict [ ("min", tmin); ("max", tmax) ]);
                  ("luminosity", of_cell (dict_get intrinsics "luminosity"));
                  ("contrast", of_cell (dict_get intrinsics "contrast")) ]);
             ("morphological",
              PDict
                [ ("form", of_cell (dict_get intrinsics "form"));
                  ("key_visual", of_cell (dict_get intrinsics "key_visual")) ]);
             ("atmospheric",
              PDict
                [ ("state", of_cell (dict_get intrinsics "atmospheric_state")) ]);
             ("temporal",
              PDict
                [ ("duration_reference",
                   of_cell (dict_get intrinsics "duration_reference")) ]) ]);
        ("modifiers_applied",
         PDict
           [ ("scale", of_record scale_mods);
             ("environment", of_record env_mods) ]) ] in
  output <-
    (if mods_truthy era_mods then
       o <- obj_set2 output "modifiers_applied" "era" (mods_obj era_mods) ;;
       obj_set2 o "visual_parameters" "capture"
         (PDict
            [ ("color_science", of_cell (mods_get era_mods "color_science"));
              ("grain", of_cell (mods_get era_mods "grain_structure"));
              ("camera",
               of_cell (mods_get era_mods "camera_characteristics")) ])
     else Ok output) ;;
  output <-
    (if mods_truthy affect_mods then
       o <- obj_set2 output "modifiers_applied" "affect" (mods_obj affect_mods) ;;
       obj_set2 o "visual_parameters" "composition"
         (PDict
            [ ("framing", of_cell (mods_get affect_mods "framing"));
              ("emotional_register",
               of_cell (mods_get affect_mods "emotional_register"));
              ("detail_focus",
               of_cell (mods_get affect_mods "detail_focus")) ])
     else Ok output) ;;
  (* Build enhanced prompt elements *)
  let elements :=
    [ ("nuclear explosion, " ++ cell_str (dict_get intrinsics "key_visual"))%string;
      (cell_str (dict_get intrinsics "luminosity") ++ " lighting")%string;
      (cell_str (dict_get intrinsics "form") ++ " morphology")%string ] in
  (* Add scale descriptors *)
  let elements :=
    if dict_truthy scale_mods then
      let elements :=
        elements ++
        [ (cell_str (dict_get scale_mods "vertical_development")
             ++ " vertical development")%string ] in
      elements ++
      [ (cell_str (dict_get scale_mods "detail_scale") ++ " scale")%string ]
    else elements in
  (* Add environment descriptors *)
  let elements :=
    if dict_truthy env_mods then
      let elements :=
        if negb (cell_eqb (dict_get env_mods "debris_character") (CStr "none"))
        then
          elements ++
          [ (cell_str (dict_get env_mods "debris_character") ++ " debris")%string ]
        else elements in
      elements ++
      [ (cell_str (dict_get env_mods "atmospheric_effect") ++ " atmosphere")%string ]
    else elements in
  (* Add era descriptors *)
  let elements :=
    if mods_truthy era_mods then
      let elements :=
        elements ++
        [ (cell_str (mods_get era_mods "color_science") ++ " color")%string ] in
      let elements :=
        elements ++ [ cell_str (mods_get era_mods "grain_structure") ] in
      elements ++
      [ (cell_str (mods_get era_mods "camera_characteristics")
           ++ " perspective")%string ]
    else elements in
  (* Add affect descriptors *)
  let elements :=
    if mods_truthy affect_mods then
      let elements := elements ++ [ cell_str (mods_get affect_mods "framing") ] in
      elements ++
      [ (cell_str (mods_get affect_mods "emotional_register") ++ " mood")%string ]
    else elements in
  output <- obj_set output "enhanced_prompt_elements" (of_strings elements) ;;
  (* Build synthesized prompt suggestion *)
  obj_set output "synthesized_prompt"
    (PStr ((prompt ++ ", ")%string
             ++ PyStr.join ", " (firstn 6 elements))%string).

(** One entry of [keyword_mappings]: single-token keywords and multi-word
    phrases. *)
Record mapping : Type := {
  keywords : list string;
  phrases : list string
}.

(** Keyword mappings to phase forms. *)
Definition keyword_mappings : dict mapping :=
  [ ("initiation.radiant_point",
     {| keywords :=
          [ "point"; "first light"; "initial"; "origin"; "birth"; "beginning" ];
        phrases :=
          [ "moment of detonation"; "first instant"; "point source" ] |});
    ("initiation.thermal_bloom",
     {| keywords :=
          [ "white"; "bloom"; "overexposed"; "blind"; "flash"; "brilliant" ];
        phrases :=
          [ "everything goes white"; "pure light"; "thermal flash"; "blinding" ] |});
    ("fireball.plasma_core",
     {| keywords :=
          [ "plasma"; "core"; "sphere"; "orange"; "hot"; "glowing" ];
        phrases :=
          [ "ball of fire"; "plasma sphere"; "incandescent" ] |});
    ("fireball.surface_instability",
     {| keywords :=
          [ "mottled"; "surface"; "texture"; "rope"; "instability"; "perturbation" ];
        phrases :=
          [ "rope tricks"; "surface detail"; "mottling" ] |});
    ("fireball.expansion_front",
     {| keywords :=
          [ "expanding"; "growing"; "cooling"; "edge"; "front" ];
        phrases :=
          [ "shock separating"; "expansion"; "cooling edges" ] |});
    ("shock.compression_disc",
     {| keywords :=
          [ "ring"; "disc"; "compression"; "wave"; "shockwave" ];
        phrases :=
          [ "compression wave"; "visible ring"; "shock ring" ] |});
    ("shock.mach_stem",
     {| keywords :=
          [ "ground"; "dust"; "debris"; "stem"; "skirt"; "dirt" ];
        phrases :=
          [ "dust skirt"; "ground interaction"; "debris curtain"; "mach stem" ] |});
    ("shock.wilson_cloud",
     {| keywords :=
          [ "cloud"; "vapor"; "condensation"; "wilson"; "dome"; "eerie" ];
        phrases :=
          [ "wilson cloud"; "vapor ring"; "condensation"; "eerie ring" ] |});
    ("rise.vortex_stem",
     {| keywords :=
          [ "stem"; "column"; "rising"; "vortex"; "pillar" ];
        phrases :=
          [ "rising column"; "stem forming"; "vortex stem" ] |});
    ("rise.toroidal_roll",
     {| keywords :=
          [ "toroid"; "roll"; "mushroom"; "cap"; "rolling" ];
        phrases :=
          [ "mushroom forming"; "rolling edges"; "toroidal" ] |});
    ("rise.cauliflower_cap",
     {| keywords :=
          [ "cauliflower"; "baroque"; "fractal"; "turbulent"; "complex"; "iconic" ];
        phrases :=
          [ "mushroom cloud"; "iconic shape"; "fractal edges"; "baroque complexity" ] |});
    ("dispersal.column_collapse",
     {| keywords :=
          [ "collapse"; "falling"; "settling"; "decay" ];
        phrases :=
          [ "column collapse"; "falling back"; "losing coherence" ] |});
    ("dispersal.anvil_spread",
     {| keywords :=
          [ "anvil"; "spread"; "horizontal"; "stratosphere" ];
        phrases :=
          [ "spreading out"; "anvil cloud"; "horizontal spread" ] |});
    ("dispersal.fallout_plume",
     {| keywords :=
          [ "fallout"; "drift"; "smear"; "aftermath"; "contamination"; "ominous" ];
        phrases :=
          [ "drifting"; "fallout"; "aftermath"; "entropic" ] |}) ].

(** One element of [matches]: the dictionary with the keys [phase_form],
    [confidence_score], [matched_terms] and [key_visual]. *)
Record candidate : Type := {
  c_phase_form : string;
  confidence_score : Z;
  matched_terms : list string;
  c_key_visual : cell
}.

(** One pass of a [for term in terms] loop over the running
    [(score, matched_terms)], each hit adding [weight]. *)
Definition scan_terms (weight : Z) (text : string) (terms : list string)
    (st : Z * list string) : Z * list string :=
  fold_left
    (fun (st : Z * list string) term =>
       if PyStr.contains text term
       then ((fst st + weight)%Z, snd st ++ [term])
       else st)
    terms st.

(** [l.sort(key=key, reverse=True)] : descending by key; Python's sort is
    stable, also under [reverse=True]. *)
Section Sort.
Context {A : Type} (key : A -> Z).

Fixpoint insert_desc (x : A) (l : list A) : list A :=
  match l with
  | [] => [x]
  | y :: l' =>
      if (key x <? key y)%Z then y :: insert_desc x l' else x :: y :: l'
  end.

Fixpoint sort_desc (l : list A) : list A :=
  match l with
  | [] => []
  | x :: l' => insert_desc x (sort_desc l')
  end.
End Sort.

(** The body of the loop over [keyword_mappings.items()], on the running
    [matches]. *)
Definition match_step (description_lower : string)
    (matches : list candidate) (item : string * mapping)
  : result (list candidate) :=
  let '(phase_form, mapping) := item in
  let st := scan_terms 1 description_lower (keywords mapping) (0%Z, []) in
  let st := scan_terms 3 description_lower (phrases mapping) st in
  let '(score, matched_terms) := st in
  if (score >? 0)%Z then
    intrinsics <- dict_item PHASEFORM_INTRINSICS phase_form ;;
    key_visual <- dict_item intrinsics "key_visual" ;;
    Ok (matches ++
        [ {| c_phase_form := phase_form;
             confidence_score := score;
             matched_terms := matched_terms;
             c_key_visual := key_visual |} ])
  else Ok matches.

Fixpoint match_loop (description_lower : string)
    (items : dict mapping) (matches : list candidate)
  : result (list candidate) :=
  match items with
  | [] => Ok matches
  | item :: items' =>
      matches' <- match_step description_lower matches item ;;
      match_loop description_lower items' matches'
  end.

(** Match natural language description to likely phase forms. *)
Definition match_description_to_phaseform (description : string)
  : result (list candidate) :=
  let description_lower := PyStr.lower description in
  matches <- match_loop description_lower keyword_mappings [] ;;
  (* Sort by confidence score descending *)
  let matches := sort_desc confidence_score matches in
  Ok (firstn 5 matches).

(* ================================================================== *)
(** ** Tools *)
(* ================================================================== *)

(** [params.f.value if params.f else dflt] *)
Definition value_or {E : Type} `{StrEnum E} (m : option E) (dflt : string) : string :=
  match m with
  | Some e => if member_truthy m then value e else dflt
  | None => dflt
  end.

(** [TABLE.get(params.f.value) if params.f else None] *)
Definition optional_mods {E : Type} `{StrEnum E}
    (table : dict record) (m : option E) : option record :=
  match m with
  | Some e => if member_truthy m then dict_lookup (value e) table else None
  | None => None
  end.

(** Enhance a prompt with nuclear explosion aesthetic parameters: the
    [output] dictionary of the tool. *)
Definition enhance_nuclear_aesthetic (params : EnhanceNuclearAestheticInput)
  : result pyobj :=
  (* Get intrinsic properties for the selected phase form *)
  let phase_key := value (phase_form params) in
  let intrinsics := dict_get_or PHASEFORM_INTRINSICS phase_key [] in
  (* Get modifier effects *)
  let scale_mods :=
    dict_get_or SCALE_MODIFIERS (value_or (scale params) "strategic") [] in
  let env_mods :=
    dict_get_or ENVIRONMENT_MODIFIERS
      (value_or (environment params) "airburst") [] in
  let era_mods := optional_mods ERA_MODIFIERS (era params) in
  let affect_mods := optional_mods AFFECT_MODIFIERS (affect params) in
  build_enhancement_output (prompt params) phase_key intrinsics
    scale_mods env_mods era_mods affect_mods.

(** The dictionary [list_phase_forms] appends for one phase form. *)
Definition phase_form_entry (phase_form : PhaseForm) : pyobj :=
  let phase_key := value phase_form in
  let intrinsics := dict_get_or PHASEFORM_INTRINSICS phase_key [] in
  PDict
    [ ("phase_form", PStr phase_key);
      ("key_visual", of_cell (dict_get_or intrinsics "key_visual" (CStr "")));
      ("duration_reference",
       of_cell (dict_get_or intrinsics "duration_reference" (CStr "")));
      ("luminous_regime",
       of_cell (dict_get_or intrinsics "luminous_regime" (CStr ""))) ].

(** [if params.phase_filter: if not phase_key.startswith(...): continue] :
    whether the loop body goes on to append. *)
Definition passes_filter (params : ListPhaseFormsInput) (phase_key : string)
  : bool :=
  match phase_filter params with
  | Some f =>
      if PyStr.truthy f
      then PyStr.startswith phase_key (PyStr.lower f)
      else true
  | None => true
  end.

(** The phase forms that reach [results.append], in iteration order. *)
Fixpoint listed_phase_forms (params : ListPhaseFormsInput)
    (forms : list PhaseForm) : list PhaseForm :=
  match forms with
  | [] => []
  | phase_form :: forms' =>
      if passes_filter params (value phase_form)
      then phase_form :: listed_phase_forms params forms'
      else listed_phase_forms params forms'
  end.

(** List all available temporal-morphological phase forms. *)
Definition list_phase_forms (params : ListPhaseFormsInput) : pyobj :=
  let results := map phase_form_entry (listed_phase_forms params members) in
  PDict [ ("phase_forms", PList results) ].

(** Get complete intrinsic properties for a specific phase form. *)
Definition get_phase_form_details (phase_form : PhaseForm) : pyobj :=
  let phase_key := value phase_form in
  let intrinsics := dict_get_or PHASEFORM_INTRINSICS phase_key [] in
  PDict
    [ ("phase_form", PStr phase_key);
      ("intrinsic_properties", of_record intrinsics);
      ("compatible_modifiers",
       PDict
         [ ("scales", of_strings (map value (members (E := Scale))));
           ("environments", of_strings (map value (members (E := Environment))));
           ("eras", of_strings (map value (members (E := Era))));
           ("affects", of_strings (map value (members (E := Affect)))) ]) ].

(** [SuggestPhaseFormInput], after validation. *)
Record SuggestPhaseFormInput : Type := {
  description : string
}.

(** One element of [matches] as the dictionary the source builds. *)
Definition of_candidate (c : candidate) : pyobj :=
  PDict
    [ ("phase_form", PStr (c_phase_form c));
      ("confidence_score", PInt (confidence_score c));
      ("matched_terms", of_strings (matched_terms c));
      ("key_visual", of_cell (c_key_visual c)) ].

Definition no_match_message : string :=
  "No strong matches found. Consider browsing phase forms with list_phase_forms.".

(** Suggest matching phase forms from a natural language description. *)
Definition suggest_phase_form (params : SuggestPhaseFormInput) : result pyobj :=
  matches <- match_description_to_phaseform (description params) ;;
  match matches with
  | [] =>
      Ok (PDict
            [ ("suggestions", PList []);
              ("message", PStr no_match_message) ])
  | _ :: _ =>
      Ok (PDict
            [ ("description", PStr (description params));
              ("suggestions", PList (map of_candidate matches)) ])
  end.

(** [{k: v for k, v in TABLE.items()}] *)
Definition options_of (table : dict record) : pyobj :=
  PDict
    (fold_left (fun acc kv => dict_set (fst kv) (of_record (snd kv)) acc)
       table []).

(** List all available modifier categories and their options. *)
Definition list_modifiers : pyobj :=
  PDict
    [ ("scale",
       PDict
         [ ("description",
            PStr "Yield scale affecting evolution rate and proportions");
           ("options", options_of SCALE_MODIFIERS) ]);
      ("environment",
       PDict
         [ ("description",
            PStr "Detonation environment affecting medium interaction");
           ("options", options_of ENVIRONMENT_MODIFIERS) ]);
      ("era",
       PDict
         [ ("description",
            PStr "Historical era affecting capture aesthetics");
           ("options", options_of ERA_MODIFIERS) ]);
      ("affect",
       PDict
         [ ("description",
            PStr "Affective intent affecting framing and emotional register");
           ("options", options_of AFFECT_MODIFIERS) ]) ].

(* ================================================================== *)
(** ** Specification vocabulary *)
(* ================================================================== *)

(** The record a table holds for a member ([{}] when it holds none). *)
Definition record_of {E : Type} `{StrEnum E} (table : dict record) (e : E)
  : record :=
  dict_get_or table (value e) [].

(** The scale and environment in force: the one given, else the canonical
    one. *)
Definition scale_in_force (params : EnhanceNuclearAestheticInput) : Scale :=
  match scale params with Some s => s | None => STRATEGIC end.

Definition environment_in_force (params : EnhanceNuclearAestheticInput)
  : Environment :=
  match environment params with Some e => e | None => AIRBURST end.

(** The phrase groups, by the record they are drawn from. *)
Definition primary_phrases (r : record) : list string :=
  [ ("nuclear explosion, " ++ cell_str (dict_get r "key_visual"))%string;
    (cell_str (dict_get r "luminosity") ++ " lighting")%string;
    (cell_str (dict_get r "form") ++ " morphology")%string ].

Definition scale_phrases (r : record) : list string :=
  [ (cell_str (dict_get r "vertical_development") ++ " vertical development")%string;
    (cell_str (dict_get r "detail_scale") ++ " scale")%string ].

Definition debris_is_none (r : record) : bool :=
  cell_eqb (dict_get r "debris_character") (CStr "none").

Definition debris_phrase (r : record) : string :=
  (cell_str (dict_get r "debris_character") ++ " debris")%string.

Definition atmosphere_phrase (r : record) : string :=
  (cell_str (dict_get r "atmospheric_effect") ++ " atmosphere")%string.

Definition environment_phrases (r : record) : list string :=
  (if debris_is_none r then [] else [debris_phrase r]) ++ [atmosphere_phrase r].

Definition era_phrases (r : record) : list string :=
  [ (cell_str (dict_get r "color_science") ++ " color")%string;
    cell_str (dict_get r "grain_structure");
    (cell_str (dict_get r "camera_characteristics") ++ " perspective")%string ].

Definition affect_phrases (r : record) : list string :=
  [ cell_str (dict_get r "framing");
    (cell_str (dict_get r "emotional_register") ++ " mood")%string ].

(** A group that is only there when its modifier is. *)
Definition when_given {A B : Type} (m : option A) (f : A -> list B) : list B :=
  match m with
  | Some a => f a
  | None => []
  end.

(** The phrase list in its fixed order. *)
Definition phrase_list (intrinsics scale_mods env_mods : record)
    (era_mods affect_mods : option record) : list string :=
  primary_phrases intrinsics
  ++ (if dict_truthy scale_mods then scale_phrases scale_mods else [])
  ++ (if dict_truthy env_mods then environment_phrases env_mods else [])
  ++ (if mods_truthy era_mods then when_given era_mods era_phrases else [])
  ++ (if mods_truthy affect_mods then when_given affect_mods affect_phrases else []).

Definition expected_elements (params : EnhanceNuclearAestheticInput)
  : list string :=
  primary_phrases (record_of PHASEFORM_INTRINSICS (phase_form params))
  ++ scale_phrases (record_of SCALE_MODIFIERS (scale_in_force params))
  ++ environment_phrases
       (record_of ENVIRONMENT_MODIFIERS (environment_in_force params))
  ++ when_given (era params) (fun e => era_phrases (record_of ERA_MODIFIERS e))
  ++ when_given (affect params)
       (fun a => affect_phrases (record_of AFFECT_MODIFIERS a)).

(** The synthesized text for a prompt and a phrase list. *)
Definition synthesis (text : string) (elements : list string) : string :=
  ((text ++ ", ") ++ PyStr.join ", " (firstn 6 elements))%string.

(** Facet and modifier keys, by which optional modifiers are in play. *)
Definition facet_keys (with_era with_affect : bool) : list string :=
  [ "luminous"; "morphological"; "atmospheric"; "temporal" ]
  ++ (if with_era then ["capture"] else [])
  ++ (if with_affect then ["composition"] else []).

Definition modifier_keys (with_era with_affect : bool) : list string :=
  [ "scale"; "environment" ]
  ++ (if with_era then ["era"] else [])
  ++ (if with_affect then ["affect"] else []).

Definition is_given {A : Type} (m : option A) : bool :=
  match m with Some _ => true | None => false end.

(** A request that sets one modifier and leaves the others out. *)
Inductive modifier : Type :=
| OfScale (s : Scale)
| OfEnvironment (e : Environment)
| OfEra (r : Era)
| OfAffect (a : Affect).

Definition with_modifier (text : string) (pf : PhaseForm) (m : modifier)
  : EnhanceNuclearAestheticInput :=
  match m with
  | OfScale s => make_input text pf (Given (Some s)) Omitted Omitted Omitted
  | OfEnvironment e => make_input text pf Omitted (Given (Some e)) Omitted Omitted
  | OfEra r => make_input text pf Omitted Omitted (Given (Some r)) Omitted
  | OfAffect a => make_input text pf Omitted Omitted Omitted (Given (Some a))
  end.

Definition with_defaults (text : string) (pf : PhaseForm)
  : EnhanceNuclearAestheticInput :=
  make_input text pf Omitted Omitted Omitted Omitted.

(** The phrases a modifier's own record yields. *)
Definition contribution (m : modifier) : list string :=
  match m with
  | OfScale s => scale_phrases (record_of SCALE_MODIFIERS s)
  | OfEnvironment e => environment_phrases (record_of ENVIRONMENT_MODIFIERS e)
  | OfEra r => era_phrases (record_of ERA_MODIFIERS r)
  | OfAffect a => affect_phrases (record_of AFFECT_MODIFIERS a)
  end.

(** How many phrases that is. *)
Definition contribution_size (m : modifier) : nat :=
  match m with
  | OfScale _ => 2
  | OfEnvironment e =>
      if debris_is_none (record_of ENVIRONMENT_MODIFIERS e) then 1 else 2
  | OfEra _ => 3
  | OfAffect _ => 2
  end.

(** The phrase list of a tool result ([[]] when there is none to read). *)
Definition elements_of (r : result pyobj) : list pyobj :=
  match r with
  | Ok out =>
      match obj_item out "enhanced_prompt_elements" with
      | Ok (PList l) => l
      | _ => []
      end
  | Raise _ => []
  end.

(** The part of an identifier before its first dot. *)
Fixpoint group_segment (s : string) : string :=
  match s with
  | EmptyString => EmptyString
  | String c s' =>
      if Ascii.eqb c "."%char then EmptyString else String c (group_segment s')
  end.

(** Two readings of "the group segment matches the filter
    case-insensitively": it equals the lower-cased filter, or it begins with
    it. *)
Definition group_equals_filter (phase_key f : string) : bool :=
  String.eqb (group_segment phase_key) (PyStr.lower f).

Definition group_starts_with_filter (phase_key f : string) : bool :=
  PyStr.startswith (group_segment phase_key) (PyStr.lower f).

(** The identifiers of a listing. *)
Definition listing (forms : list PhaseForm) : pyobj :=
  PDict [ ("phase_forms", PList (map phase_form_entry forms)) ].

(** The terms of a table entry found in the text, in table order. *)
Definition hits (text : string) (terms : list string) : list string :=
  filter (PyStr.contains text) terms.

(** The score as a count: one per keyword found, three per phrase found. *)
Definition counted_score (text : string) (m : mapping) : Z :=
  (Z.of_nat (length (hits text (keywords m)))
   + 3 * Z.of_nat (length (hits text (phrases m))))%Z.

Definition counted_terms (text : string) (m : mapping) : list string :=
  hits text (keywords m) ++ hits text (phrases m).

Definition counted_candidate (text : string) (item : string * mapping)
  : candidate :=
  {| c_phase_form := fst item;
     confidence_score := counted_score text (snd item);
     matched_terms := counted_terms text (snd item);
     c_key_visual :=
       dict_get (dict_get_or PHASEFORM_INTRINSICS (fst item) []) "key_visual" |}.

(** The candidates before ranking: the scored categories in table order. *)
Definition counted_candidates (text : string) (items : dict mapping)
  : list candidate :=
  map (counted_candidate text)
    (filter (fun item => (0 <? counted_score text (snd item))%Z) items).

(** Ranked from the highest score down. *)
Definition by_score_desc (a b : candidate) : Prop :=
  (confidence_score b <= confidence_score a)%Z.

(** The candidates of one score, in the order they stand. *)
Definition with_score (s : Z) (l : list candidate) : list candidate :=
  filter (fun c => (confidence_score c =? s)%Z) l.

(** An entry of [keyword_mappings] whose key has a record, and that record
    a [key_visual]. *)
Definition has_key_visual (item : string * mapping) : Prop :=
  exists intrinsics kv,
    dict_lookup (fst item) PHASEFORM_INTRINSICS = Some intrinsics
    /\ dict_lookup "key_visual" intrinsics = Some kv.

(** [o[k1][k2]...] along a path of keys. *)
Fixpoint obj_path (o : pyobj) (path : list string) : result pyobj :=
  match path with
  | [] => Ok o
  | k :: path' => v <- obj_item o k ;; obj_path v path'
  end.

(** The output written down in one piece, for a colour temperature range
    already subscripted to [tmin] and [tmax]. *)
Definition assembled_output (text key : string)
    (intrinsics scale_mods env_mods : record)
    (era_mods affect_mods : option record) (tmin tmax : pyobj) : pyobj :=
  let elements :=
    phrase_list intrinsics scale_mods env_mods era_mods affect_mods in
  PDict
    [ ("original_prompt", PStr text);
      ("phase_form", PStr key);
      ("enhanced_prompt_elements", of_strings elements);
      ("visual_parameters",
       PDict
         ([ ("luminous",
             PDict
               [ ("regime", of_cell (dict_get intrinsics "luminous_regime"));
                 ("color_temperature_k", PDict [ ("min", tmin); ("max", tmax) ]);
                 ("luminosity", of_cell (dict_get intrinsics "luminosity"));
                 ("contrast", of_cell (dict_get intrinsics "contrast")) ]);
            ("morphological",
             PDict
               [ ("form", of_cell (dict_get intrinsics "form"));
                 ("key_visual", of_cell (dict_get intrinsics "key_visual")) ]);
            ("atmospheric",
             PDict
               [ ("state", of_cell (dict_get intrinsics "atmospheric_state")) ]);
            ("temporal",
             PDict
               [ ("duration_reference",
                  of_cell (dict_get intrinsics "duration_reference")) ]) ]
          ++ (if mods_truthy era_mods then
                [ ("capture",
                   PDict
                     [ ("color_science",
                        of_cell (mods_get era_mods "color_science"));
                       ("grain", of_cell (mods_get era_mods "grain_structure"));
                       ("camera",
                        of_cell (mods_get era_mods "camera_characteristics")) ]) ]
              else [])
          ++ (if mods_truthy affect_mods then
                [ ("composition",
                   PDict
                     [ ("framing", of_cell (mods_get affect_mods "framing"));
                       ("emotional_register",
                        of_cell (mods_get affect_mods "emotional_register"));
                       ("detail_focus",
                        of_cell (mods_get affect_mods "detail_focus")) ]) ]
              else [])));
      ("modifiers_applied",
       PDict
         ([ ("scale", of_record scale_mods);
            ("environment", of_record env_mods) ]
          ++ (if mods_truthy era_mods then [ ("era", mods_obj era_mods) ] else [])
          ++ (if mods_truthy affect_mods
              then [ ("affect", mods_obj affect_mods) ] else [])));
      ("synthesized_prompt", PStr (synthesis text elements)) ].

(** Every term a table entry tests, keywords first. *)
Definition all_terms (m : mapping) : list string := keywords m ++ phrases m.

(** The same request with era and affect left out. *)
Definition without_era_and_affect (params : EnhanceNuclearAestheticInput)
  : EnhanceNuclearAestheticInput :=
  {| prompt := prompt params;
     phase_form := phase_form params;
     scale := scale params;
     environment := environment params;
     era := None;
     affect := None |}.

(** The one environment phrase that reaches the synthesized text. *)
Definition leading_environment_phrase (r : record) : string :=
  if cell_eqb (dict_get r "debris_character") (CStr "none")
  then atmosphere_phrase r
  else debris_phrase r.

(** No keyword and no phrase of any category occurs in the text. *)
Definition no_term_found (text : string) : bool :=
  forallb
    (fun item : string * mapping =>
       forallb (fun t => negb (PyStr.contains text t)) (all_terms (snd item)))
    keyword_mappings.

(** The number of categories with at least one term in the text. *)
Definition categories_hit (text : string) : nat :=
  length
    (filter
       (fun item : string * mapping =>
          existsb (PyStr.contains text) (all_terms (snd item)))
       keyword_mappings).

(* ================================================================== *)
(** ** Text of any kind *)
(* ================================================================== *)

(** Every character of the text is an ASCII character. *)
Fixpoint is_ascii (s : string) : bool :=
  match s with
  | EmptyString => true
  | String c s' => (nat_of_ascii c <? 128)%nat && is_ascii s'
  end.

(** What [str.lower] does on ASCII text. *)
Definition lowers_ascii (str_lower : string -> string) : Prop :=
  forall s, is_ascii s = true -> str_lower s = PyStr.lower s.

(** The functions that call [str.lower], with the builtin as a parameter. *)
Module Unicode.
Section StrLower.
Variable str_lower : string -> string.

(** Match natural language description to likely phase forms. *)
Definition match_description_to_phaseform (description : string)
  : result (list candidate) :=
  let description_lower := str_lower description in
  matches <- match_loop description_lower keyword_mappings [] ;;
  (* Sort by confidence score descending *)
  let matches := sort_desc confidence_score matches in
  Ok (firstn 5 matches).

(** Suggest matching phase forms from a natural language description. *)
Definition suggest_phase_form (params : SuggestPhaseFormInput) : result pyobj :=
  matches <- match_description_to_phaseform (description params) ;;
  match matches with
  | [] =>
      Ok (PDict
            [ ("suggestions", PList []);
              ("message", PStr no_match_message) ])
  | _ :: _ =>
      Ok (PDict
            [ ("description", PStr (description params));
              ("suggestions", PList (map of_candidate matches)) ])
  end.

(** [if params.phase_filter: if not phase_key.startswith(...): continue] :
    whether the loop body goes on to append. *)
Definition passes_filter (params : ListPhaseFormsInput) (phase_key : string)
  : bool :=
  match phase_filter params with
  | Some f =>
      if PyStr.truthy f
      then PyStr.startswith phase_key (str_lower f)
      else true
  | None => true
  end.

(** The phase forms that reach [results.append], in iteration order. *)
Fixpoint listed_phase_forms (params : ListPhaseFormsInput)
    (forms : list PhaseForm) : list PhaseForm :=
  match forms with
  | [] => []
  | phase_form :: forms' =>
      if passes_filter params (value phase_form)
      then phase_form :: listed_phase_forms params forms'
      else listed_phase_forms params forms'
  end.

(** List all available temporal-morphological phase forms. *)
Definition list_phase_forms (params : ListPhaseFormsInput) : pyobj :=
  let results := map phase_form_entry (listed_phase_forms params members) in
  PDict [ ("phase_forms", PList results) ].

End StrLower.
End Unicode.

(* ================================================================== *)
(** ** The composer *)
(* ================================================================== *)

(** What [build_enhancement_output] hands back once the colour temperature
    range can be subscripted. *)
Lemma build_enhancement_output_spec
    text key intrinsics scale_mods env_mods era_mods affect_mods tmin tmax :
  cell_item (dict_get_or intrinsics "color_temperature_k" (CRange 5500 6500)) 0
    = Ok tmin ->
  cell_item (dict_get_or intrinsics "color_temperature_k" (CRange 5500 6500)) 1
    = Ok tmax ->
  exists out vp ma,
    build_enhancement_output text key intrinsics scale_mods env_mods
      era_mods affect_mods = Ok out
    /\ obj_item out "original_prompt" = Ok (PStr text)
    /\ obj_item out "visual_parameters" = Ok (PDict vp)
    /\ dict_keys vp = facet_keys (mods_truthy era_mods) (mods_truthy affect_mods)
    /\ obj_item out "modifiers_applied" = Ok (PDict ma)
    /\ dict_keys ma
       = modifier_keys (mods_truthy era_mods) (mods_truthy affect_mods)
    /\ dict_lookup "scale" ma = Some (of_record scale_mods)
    /\ dict_lookup "environment" ma = Some (of_record env_mods)
    /\ obj_item out "enhanced_prompt_elements"
       = Ok (of_strings
               (phrase_list intrinsics scale_mods env_mods era_mods affect_mods))
    /\ obj_item out "synthesized_prompt"
       = Ok (PStr
               (synthesis text
                  (phrase_list intrinsics scale_mods env_mods
                     era_mods affect_mods))).
Proof.
  intros Hmin Hmax.
  unfold build_enhancement_output. rewrite Hmin, Hmax.
  unfold synthesis, phrase_list, environment_phrases, debris_is_none,
    debris_phrase, atmosphere_phrase.
  cbn [bind].
  destruct (mods_truthy era_mods) eqn:He, (mods_truthy affect_mods) eqn:Ha,
           (dict_truthy scale_mods), (dict_truthy env_mods);
    destruct (cell_eqb (dict_get env_mods "debris_character") (CStr "none"));
    cbn -[cell_str dict_get mods_get PyStr.join firstn String.append];
    do 3 eexists; repeat split; try reflexivity;
    destruct era_mods, affect_mods; try discriminate; reflexivity.
Qed.

(** *** The tables against the enumerations *)

Lemma intrinsics_temperature (pf : PhaseForm) :
  exists lo hi,
    dict_get_or (record_of PHASEFORM_INTRINSICS pf) "color_temperature_k"
      (CRange 5500 6500) = CRange lo hi.
Proof. destruct pf; do 2 eexists; reflexivity. Qed.

Lemma scale_mods_resolved (s : option Scale) :
  dict_get_or SCALE_MODIFIERS (value_or s "strategic") []
  = record_of SCALE_MODIFIERS (match s with Some x => x | None => STRATEGIC end).
Proof. destruct s as [[]|]; reflexivity. Qed.

Lemma env_mods_resolved (e : option Environment) :
  dict_get_or ENVIRONMENT_MODIFIERS (value_or e "airburst") []
  = record_of ENVIRONMENT_MODIFIERS
      (match e with Some x => x | None => AIRBURST end).
Proof. destruct e as [[]|]; reflexivity. Qed.

Lemma scale_record_truthy (s : Scale) :
  dict_truthy (record_of SCALE_MODIFIERS s) = true.
Proof. destruct s; reflexivity. Qed.

Lemma environment_record_truthy (e : Environment) :
  dict_truthy (record_of ENVIRONMENT_MODIFIERS e) = true.
Proof. destruct e; reflexivity. Qed.

Lemma era_mods_resolved (r : option Era) :
  optional_mods ERA_MODIFIERS r = option_map (record_of ERA_MODIFIERS) r
  /\ mods_truthy (optional_mods ERA_MODIFIERS r) = is_given r.
Proof. destruct r as [[]|]; split; reflexivity. Qed.

Lemma affect_mods_resolved (a : option Affect) :
  optional_mods AFFECT_MODIFIERS a = option_map (record_of AFFECT_MODIFIERS) a
  /\ mods_truthy (optional_mods AFFECT_MODIFIERS a) = is_given a.
Proof. destruct a as [[]|]; split; reflexivity. Qed.

Lemma when_given_map {A B C : Type} (m : option A) (g : A -> B) (f : B -> list C) :
  (if is_given m then when_given (option_map g m) f else [])
  = when_given m (fun a => f (g a)).
Proof. destruct m; reflexivity. Qed.

(** The tool on any validated input: it returns, and every part of the
    output is fixed by the input. *)
Lemma enhance_nuclear_aesthetic_spec (params : EnhanceNuclearAestheticInput) :
  exists out vp ma,
    enhance_nuclear_aesthetic params = Ok out
    /\ obj_item out "original_prompt" = Ok (PStr (prompt params))
    /\ obj_item out "visual_parameters" = Ok (PDict vp)
    /\ dict_keys vp = facet_keys (is_given (era params)) (is_given (affect params))
    /\ obj_item out "modifiers_applied" = Ok (PDict ma)
    /\ dict_keys ma
       = modifier_keys (is_given (era params)) (is_given (affect params))
    /\ dict_lookup "scale" ma
       = Some (of_record (record_of SCALE_MODIFIERS (scale_in_force params)))
    /\ dict_lookup "environment" ma
       = Some (of_record
                 (record_of ENVIRONMENT_MODIFIERS (environment_in_force params)))
    /\ obj_item out "enhanced_prompt_elements"
       = Ok (of_strings (expected_elements params))
    /\ obj_item out "synthesized_prompt"
       = Ok (PStr (synthesis (prompt params) (expected_elements params))).
Proof.
  destruct params as [text pf s e r a].
  unfold enhance_nuclear_aesthetic, expected_elements, scale_in_force,
    environment_in_force.
  cbn [prompt phase_form scale environment era affect].
  destruct (intrinsics_temperature pf) as (lo & hi & Hrange).
  destruct (era_mods_resolved r) as [Hr Hrt].
  destruct (affect_mods_resolved a) as [Ha Hat].
  rewrite scale_mods_resolved, env_mods_resolved.
  set (sm := record_of SCALE_MODIFIERS _).
  set (em := record_of ENVIRONMENT_MODIFIERS _).
  fold (record_of PHASEFORM_INTRINSICS pf).
  destruct (build_enhancement_output_spec text (value pf)
              (record_of PHASEFORM_INTRINSICS pf) sm em
              (optional_mods ERA_MODIFIERS r) (optional_mods AFFECT_MODIFIERS a)
              (PInt lo) (PInt hi))
    as (out & vp & ma & Hout & Hp & Hvp & Hvk & Hma & Hmk & Hsc & Hen & Hel & Hsyn).
  { rewrite Hrange. reflexivity. }
  { rewrite Hrange. reflexivity. }
  assert (Hlist :
    phrase_list (record_of PHASEFORM_INTRINSICS pf) sm em
      (optional_mods ERA_MODIFIERS r) (optional_mods AFFECT_MODIFIERS a)
    = primary_phrases (record_of PHASEFORM_INTRINSICS pf)
      ++ scale_phrases sm ++ environment_phrases em
      ++ when_given r (fun e => era_phrases (record_of ERA_MODIFIERS e))
      ++ when_given a (fun x => affect_phrases (record_of AFFECT_MODIFIERS x))).
  { unfold phrase_list. rewrite Hrt, Hat, Hr, Ha.
    subst sm em.
    rewrite scale_record_truthy, environment_record_truthy.
    rewrite !when_given_map. reflexivity. }
  rewrite Hlist in Hel, Hsyn. rewrite Hrt, Hat in Hvk, Hmk.
  exists out, vp, ma. repeat split; assumption.
Qed.

Lemma prefix_append (a b : string) : String.prefix a (a ++ b) = true.
Proof.
  induction a as [|c a IH]; cbn.
  - destruct b; reflexivity.
  - destruct (ascii_dec c c) as [_|Hne]; [exact IH | now elim Hne].
Qed.

Lemma expected_elements_length (params : EnhanceNuclearAestheticInput) :
  6 <= length (expected_elements params).
Proof.
  unfold expected_elements, environment_phrases.
  rewrite !length_app. cbn [length primary_phrases scale_phrases]. lia.
Qed.

(** C1. The optional output keys follow the optional inputs: the facet
    keys are the four mandatory ones, then [capture] exactly when an era was
    given, then [composition] exactly when an affect was given; the keys
    under [modifiers_applied] are [scale] and [environment], then [era] and
    [affect] under the same conditions.  So with both left out none of the
    four optional keys is there, and with both given (for instance
    era "modern" and affect "clinical") the facets include [capture] and
    [composition] and [modifiers_applied] has exactly
    scale, environment, era, affect. *)
Theorem optional_keys_follow_optional_inputs
    (params : EnhanceNuclearAestheticInput) :
  exists out vp ma,
    enhance_nuclear_aesthetic params = Ok out
    /\ obj_item out "visual_parameters" = Ok (PDict vp)
    /\ obj_item out "modifiers_applied" = Ok (PDict ma)
    /\ dict_keys vp
       = [ "luminous"; "morphological"; "atmospheric"; "temporal" ]
         ++ (if is_given (era params) then ["capture"] else [])
         ++ (if is_given (affect params) then ["composition"] else [])
    /\ dict_keys ma
       = [ "scale"; "environment" ]
         ++ (if is_given (era params) then ["era"] else [])
         ++ (if is_given (affect params) then ["affect"] else []).
Proof.
  destruct (enhance_nuclear_aesthetic_spec params)
    as (out & vp & ma & Hout & _ & Hvp & Hvk & Hma & Hmk & _).
  exists out, vp, ma. repeat split; assumption.
Qed.

(** C2. The phrase list is built in a fixed order with fixed group sizes:
    three phrases from the primary record, two from the scale record, the
    environment's debris phrase (only when its [debris_character] is not the
    literal "none") and its atmosphere phrase, three from the era record if
    an era was given, two from the affect record if an affect was given. *)
Theorem phrase_list_order_and_sizes (params : EnhanceNuclearAestheticInput) :
  let env := record_of ENVIRONMENT_MODIFIERS (environment_in_force params) in
  let p := primary_phrases (record_of PHASEFORM_INTRINSICS (phase_form params)) in
  let s := scale_phrases (record_of SCALE_MODIFIERS (scale_in_force params)) in
  let e := if cell_eqb (dict_get env "debris_character") (CStr "none")
           then [atmosphere_phrase env]
           else [debris_phrase env; atmosphere_phrase env] in
  let r := when_given (era params)
             (fun x => era_phrases (record_of ERA_MODIFIERS x)) in
  let a := when_given (affect params)
             (fun x => affect_phrases (record_of AFFECT_MODIFIERS x)) in
  exists out,
    enhance_nuclear_aesthetic params = Ok out
    /\ obj_item out "enhanced_prompt_elements"
       = Ok (of_strings (p ++ s ++ e ++ r ++ a))
    /\ length p = 3
    /\ length s = 2
    /\ length e
       = (if cell_eqb (dict_get env "debris_character") (CStr "none")
          then 1 else 2)
    /\ length r = (if is_given (era params) then 3 else 0)
    /\ length a = (if is_given (affect params) then 2 else 0).
Proof.
  intros env p s e r a.
  destruct (enhance_nuclear_aesthetic_spec params)
    as (out & vp & ma & Hout & _ & _ & _ & _ & _ & _ & _ & Hel & _).
  exists out. split; [exact Hout|]. split.
  - rewrite Hel. unfold expected_elements, environment_phrases, debris_is_none.
    fold env. subst p s e r a.
    destruct (cell_eqb (dict_get env "debris_character") (CStr "none"));
      reflexivity.
  - subst p s e r a. repeat split.
    + destruct (cell_eqb _ _); reflexivity.
    + destruct (era params); reflexivity.
    + destruct (affect params); reflexivity.
Qed.

(** C6. The synthesized text is the original text, the separator, and the
    first six phrases of the phrase list joined by the separator: it begins
    with the text followed by the separator and never carries more than six
    phrases, however long the phrase list is. *)
Theorem synthesized_prompt_prefix_and_cap
    (params : EnhanceNuclearAestheticInput) :
  exists out elements appended synthesized,
    enhance_nuclear_aesthetic params = Ok out
    /\ obj_item out "enhanced_prompt_elements" = Ok (of_strings elements)
    /\ obj_item out "synthesized_prompt" = Ok (PStr synthesized)
    /\ appended = firstn 6 elements
    /\ synthesized
       = ((prompt params ++ ", ") ++ PyStr.join ", " appended)%string
    /\ String.prefix (prompt params ++ ", ") synthesized = true
    /\ length appended <= 6.
Proof.
  destruct (enhance_nuclear_aesthetic_spec params)
    as (out & vp & ma & Hout & _ & _ & _ & _ & _ & _ & _ & Hel & Hsyn).
  exists out, (expected_elements params),
    (firstn 6 (expected_elements params)),
    (synthesis (prompt params) (expected_elements params)).
  repeat split; try assumption.
  - apply prefix_append.
  - apply firstn_le_length.
Qed.

(** C9. The phrase list always has at least six entries (three primary,
    two scale and at least one environment phrase), so the synthesized text
    always carries exactly six phrases. *)
Theorem phrase_list_has_six (params : EnhanceNuclearAestheticInput) :
  exists out elements,
    enhance_nuclear_aesthetic params = Ok out
    /\ obj_item out "enhanced_prompt_elements" = Ok (of_strings elements)
    /\ 6 <= length elements
    /\ obj_item out "synthesized_prompt"
       = Ok (PStr ((prompt params ++ ", ")
                     ++ PyStr.join ", " (firstn 6 elements))%string)
    /\ length (firstn 6 elements) = 6.
Proof.
  destruct (enhance_nuclear_aesthetic_spec params)
    as (out & vp & ma & Hout & _ & _ & _ & _ & _ & _ & _ & Hel & Hsyn).
  pose proof (expected_elements_length params) as Hlen.
  exists out, (expected_elements params).
  repeat split; try assumption.
  rewrite length_firstn. lia.
Qed.

(** C10. An explicit null for the scale, or for the environment, gives the
    very output of leaving that parameter out: the null scale falls back to
    the "strategic" record and the null environment to the "airburst"
    record. *)
Theorem null_scale_or_environment_as_omitted
    (text : string) (pf : PhaseForm) (s : supplied Scale)
    (e : supplied Environment) (r : supplied Era) (a : supplied Affect) :
  exists out_s ma_s out_e ma_e,
    enhance_nuclear_aesthetic (make_input text pf (Given None) e r a) = Ok out_s
    /\ enhance_nuclear_aesthetic (make_input text pf Omitted e r a) = Ok out_s
    /\ obj_item out_s "modifiers_applied" = Ok (PDict ma_s)
    /\ dict_lookup "scale" ma_s
       = Some (of_record (dict_get_or SCALE_MODIFIERS "strategic" []))
    /\ enhance_nuclear_aesthetic (make_input text pf s (Given None) r a) = Ok out_e
    /\ enhance_nuclear_aesthetic (make_input text pf s Omitted r a) = Ok out_e
    /\ obj_item out_e "modifiers_applied" = Ok (PDict ma_e)
    /\ dict_lookup "environment" ma_e
       = Some (of_record (dict_get_or ENVIRONMENT_MODIFIERS "airburst" [])).
Proof.
  destruct (enhance_nuclear_aesthetic_spec
              (make_input text pf (Given None) e r a))
    as (out_s & _ & ma_s & Hs & _ & _ & _ & Hms & _ & Hsc & _).
  destruct (enhance_nuclear_aesthetic_spec
              (make_input text pf s (Given None) r a))
    as (out_e & _ & ma_e & He & _ & _ & _ & Hme & _ & _ & Hen & _).
  exists out_s, ma_s, out_e, ma_e.
  repeat split; assumption.
Qed.

(** C4, as amended.  For every modifier of every dimension, the request
    that sets that one modifier and leaves the others out returns, and its
    phrase list holds that modifier's contribution: two phrases for a scale
    or an affect, three for an era, and for an environment the atmosphere
    phrase preceded by the debris phrase only when [debris_character] is not
    "none". *)
Theorem single_modifier_contribution
    (text : string) (pf : PhaseForm) (m : modifier) :
  exists out before after,
    enhance_nuclear_aesthetic (with_modifier text pf m) = Ok out
    /\ obj_item out "enhanced_prompt_elements"
       = Ok (of_strings (before ++ contribution m ++ after))
    /\ length (contribution m)
       = match m with
         | OfScale _ => 2
         | OfEnvironment e =>
             if cell_eqb
                  (dict_get (record_of ENVIRONMENT_MODIFIERS e) "debris_character")
                  (CStr "none")
             then 1 else 2
         | OfEra _ => 3
         | OfAffect _ => 2
         end.
Proof.
  destruct (enhance_nuclear_aesthetic_spec (with_modifier text pf m))
    as (out & vp & ma & Hout & _ & _ & _ & _ & _ & _ & _ & Hel & _).
  set (p := primary_phrases (record_of PHASEFORM_INTRINSICS pf)).
  set (s0 := scale_phrases (record_of SCALE_MODIFIERS STRATEGIC)).
  set (e0 := environment_phrases (record_of ENVIRONMENT_MODIFIERS AIRBURST)).
  assert (Hshape : forall params,
    expected_elements params
    = primary_phrases (record_of PHASEFORM_INTRINSICS (phase_form params))
      ++ scale_phrases (record_of SCALE_MODIFIERS (scale_in_force params))
      ++ environment_phrases
           (record_of ENVIRONMENT_MODIFIERS (environment_in_force params))
      ++ when_given (era params)
           (fun x => era_phrases (record_of ERA_MODIFIERS x))
      ++ when_given (affect params)
           (fun x => affect_phrases (record_of AFFECT_MODIFIERS x)))
    by reflexivity.
  rewrite Hshape in Hel. clear Hshape.
  destruct m as [s|e|r|a];
    cbn [with_modifier make_input field_value phase_form scale environment
         era affect scale_in_force environment_in_force scale_default
         environment_default era_default affect_default when_given] in Hel;
    fold p s0 e0 in Hel; cbn [contribution].
  - exists out, p, e0.
    split; [exact Hout|]. split; [|reflexivity].
    rewrite Hel, !app_nil_r. reflexivity.
  - exists out, (p ++ s0), [].
    split; [exact Hout|]. split.
    + rewrite Hel, <- !app_assoc. reflexivity.
    + unfold environment_phrases, debris_is_none.
      destruct (cell_eqb _ _); reflexivity.
  - exists out, (p ++ s0 ++ e0), [].
    split; [exact Hout|]. split; [|reflexivity].
    rewrite Hel, <- !app_assoc. reflexivity.
  - exists out, (p ++ s0 ++ e0), [].
    split; [exact Hout|]. split; [|reflexivity].
    rewrite Hel, <- !app_assoc, !app_nil_r. reflexivity.
Qed.

(** C4, as stated, fails for the era dimension: the request with era
    "trinity" alone has the phrase list of the all-defaults request followed
    by three phrases, so it is not that list followed by two. *)
Lemma era_contributes_three_phrases :
  elements_of
    (enhance_nuclear_aesthetic
       (with_modifier "test shot" RISE_CAULIFLOWER_CAP (OfEra TRINITY)))
  = elements_of
      (enhance_nuclear_aesthetic (with_defaults "test shot" RISE_CAULIFLOWER_CAP))
    ++ [ PStr "sepia_monochrome color";
         PStr "heavy_film_grain";
         PStr "static_distant_tripod perspective" ]
  /\ ~ (exists p q,
          elements_of
            (enhance_nuclear_aesthetic
               (with_modifier "test shot" RISE_CAULIFLOWER_CAP (OfEra TRINITY)))
          = elements_of
              (enhance_nuclear_aesthetic
                 (with_defaults "test shot" RISE_CAULIFLOWER_CAP))
            ++ [p; q]).
Proof.
  split.
  - vm_compute. reflexivity.
  - intros (p & q & H).
    apply (f_equal (@length pyobj)) in H.
    vm_compute in H. discriminate H.
Qed.

(* ================================================================== *)
(** ** The taxonomy store *)
(* ================================================================== *)

(** C7. Each of the 14 phase forms has exactly one record in the intrinsics
    table; [get_phase_form_details] returns it, it is not empty, and its
    fields are exactly the eight of luminous regime, colour temperature (a
    min/max pair), luminosity, form, duration reference, atmospheric state,
    key visual and contrast. *)
Theorem every_phase_form_has_its_record (pf : PhaseForm) :
  exists intrinsics lo hi,
    obj_item (get_phase_form_details pf) "intrinsic_properties"
      = Ok (of_record intrinsics)
    /\ dict_lookup (value pf) PHASEFORM_INTRINSICS = Some intrinsics
    /\ length (filter (fun kv => String.eqb (fst kv) (value pf))
                 PHASEFORM_INTRINSICS) = 1
    /\ intrinsics <> []
    /\ dict_keys intrinsics
       = [ "luminous_regime"; "color_temperature_k"; "luminosity"; "form";
           "duration_reference"; "atmospheric_state"; "key_visual"; "contrast" ]
    /\ dict_lookup "color_temperature_k" intrinsics = Some (CRange lo hi)
    /\ In pf members
    /\ length (members (E := PhaseForm)) = 14
    /\ length PHASEFORM_INTRINSICS = 14.
Proof.
  destruct pf; do 3 eexists;
    (split; [reflexivity|]);
    (split; [reflexivity|]);
    (split; [reflexivity|]);
    (split; [discriminate|]);
    (split; [reflexivity|]);
    (split; [reflexivity|]);
    (split; [cbn; tauto|]);
    split; reflexivity.
Qed.

Lemma prefix_empty (s : string) : String.prefix EmptyString s = true.
Proof. destruct s; reflexivity. Qed.

Lemma listed_phase_forms_filter (params : ListPhaseFormsInput)
    (forms : list PhaseForm) :
  listed_phase_forms params forms
  = filter (fun pf => passes_filter params (value pf)) forms.
Proof.
  induction forms as [|pf forms IH]; cbn [listed_phase_forms filter].
  - reflexivity.
  - rewrite IH. reflexivity.
Qed.

Lemma passes_filter_startswith (f phase_key : string) :
  passes_filter {| phase_filter := Some f |} phase_key
  = PyStr.startswith phase_key (PyStr.lower f).
Proof.
  unfold passes_filter. cbn [phase_filter].
  destruct f as [|c f]; cbn [PyStr.truthy].
  - unfold PyStr.startswith. cbn [PyStr.lower].
    symmetry. apply prefix_empty.
  - reflexivity.
Qed.

Lemma listed_phase_forms_filter_any (str_lower : string -> string)
    (params : ListPhaseFormsInput) (forms : list PhaseForm) :
  Unicode.listed_phase_forms str_lower params forms
  = filter (fun pf => Unicode.passes_filter str_lower params (value pf)) forms.
Proof.
  induction forms as [|pf forms IH];
    cbn [Unicode.listed_phase_forms filter].
  - reflexivity.
  - rewrite IH. reflexivity.
Qed.

Lemma passes_filter_startswith_any (str_lower : string -> string)
    (f phase_key : string) :
  lowers_ascii str_lower ->
  Unicode.passes_filter str_lower {| phase_filter := Some f |} phase_key
  = PyStr.startswith phase_key (str_lower f).
Proof.
  intros Hlower. unfold Unicode.passes_filter. cbn [phase_filter].
  destruct f as [|c f]; cbn [PyStr.truthy].
  - rewrite (Hlower EmptyString eq_refl).
    unfold PyStr.startswith. cbn [PyStr.lower].
    symmetry. apply prefix_empty.
  - reflexivity.
Qed.

(** C8, as amended.  With the filter "fireball" the listing is exactly the
    three fireball identifiers in declaration order; in general, with a
    filter given, it is exactly the identifiers that begin with the
    lower-cased filter, in declaration order: the test is a prefix test on
    the whole identifier.  The filter is text of any kind: [str_lower]
    stands for [str.lower]. *)
Theorem list_phase_forms_prefix_filter
    (str_lower : string -> string) (Hlower : lowers_ascii str_lower)
    (f : string) :
  Unicode.list_phase_forms str_lower {| phase_filter := Some f |}
  = listing
      (filter (fun pf => PyStr.startswith (value pf) (str_lower f)) members)
  /\ Unicode.list_phase_forms str_lower {| phase_filter := Some "fireball" |}
     = listing
         [ FIREBALL_PLASMA_CORE; FIREBALL_SURFACE_INSTABILITY;
           FIREBALL_EXPANSION_FRONT ]
  /\ map value
       [ FIREBALL_PLASMA_CORE; FIREBALL_SURFACE_INSTABILITY;
         FIREBALL_EXPANSION_FRONT ]
     = [ "fireball.plasma_core"; "fireball.surface_instability";
         "fireball.expansion_front" ].
Proof.
  assert (Hgeneral : forall g,
    Unicode.list_phase_forms str_lower {| phase_filter := Some g |}
    = listing
        (filter (fun pf => PyStr.startswith (value pf) (str_lower g)) members)).
  { intros g. unfold Unicode.list_phase_forms, listing.
    rewrite listed_phase_forms_filter_any.
    rewrite (filter_ext
               (fun pf => Unicode.passes_filter str_lower
                            {| phase_filter := Some g |} (value pf))
               (fun pf => PyStr.startswith (value pf) (str_lower g))).
    - reflexivity.
    - intros pf. apply passes_filter_startswith_any. exact Hlower. }
  split; [apply Hgeneral|]. split; [|reflexivity].
  rewrite Hgeneral, (Hlower "fireball" eq_refl). reflexivity.
Qed.

Lemma list_phase_forms_prefix_filter_witness :
  lowers_ascii PyStr.lower
  /\ Unicode.list_phase_forms PyStr.lower {| phase_filter := Some "FireBall" |}
     = listing
         (filter
            (fun pf => PyStr.startswith (value pf) (PyStr.lower "FireBall"))
            members)
  /\ Unicode.list_phase_forms PyStr.lower {| phase_filter := Some "FireBall" |}
     = listing
         [ FIREBALL_PLASMA_CORE; FIREBALL_SURFACE_INSTABILITY;
           FIREBALL_EXPANSION_FRONT ].
Proof.
  split; [intros s _; reflexivity|]. split.
  - exact (proj1 (list_phase_forms_prefix_filter PyStr.lower
                    (fun s _ => eq_refl) "FireBall")).
  - vm_compute. reflexivity.
Defined.

(** C8, as stated, fails: for the filter "fireball.p" the listing holds
    "fireball.plasma_core", though no identifier has a group segment that
    equals that filter or begins with it. *)
Lemma list_phase_forms_filter_beyond_group :
  list_phase_forms {| phase_filter := Some "fireball.p" |}
  = listing [ FIREBALL_PLASMA_CORE ]
  /\ filter (fun pf => group_equals_filter (value pf) "fireball.p") members = []
  /\ filter (fun pf => group_starts_with_filter (value pf) "fireball.p") members
     = []
  /\ list_phase_forms {| phase_filter := Some "fireball.p" |}
     <> listing
          (filter (fun pf => group_starts_with_filter (value pf) "fireball.p")
             members).
Proof.
  repeat split; try reflexivity.
  vm_compute. discriminate.
Qed.

(* ================================================================== *)
(** ** Substring containment *)
(* ================================================================== *)

Lemma prefix_iff_append (p s : string) :
  String.prefix p s = true <-> exists t, s = (p ++ t)%string.
Proof.
  revert s. induction p as [|c p IH]; intros s.
  - split; [intros _; exists s; reflexivity | intros _; apply prefix_empty].
  - destruct s as [|d s]; cbn [String.prefix String.append].
    + split; [discriminate | intros [t Ht]; discriminate Ht].
    + destruct (ascii_dec c d) as [->|Hne].
      * rewrite IH. split; intros [t Ht]; exists t.
        -- rewrite Ht. reflexivity.
        -- now inversion Ht.
      * split; [discriminate | intros [t Ht]; injection Ht as Hc _; now elim Hne].
Qed.

(** [PyStr.contains] is literal substring containment. *)
Lemma contains_iff_substring (hay needle : string) :
  PyStr.contains hay needle = true
  <-> exists before after, hay = (before ++ needle ++ after)%string.
Proof.
  induction hay as [|c hay IH]; cbn [PyStr.contains].
  - rewrite prefix_iff_append. split.
    + intros [t Ht]. exists EmptyString, t. exact Ht.
    + intros (before & after & H). exists after.
      destruct before; [exact H | discriminate H].
  - rewrite orb_true_iff, prefix_iff_append, IH. split.
    + intros [[t Ht] | (before & after & H)].
      * exists EmptyString, t. exact Ht.
      * exists (String c before), after. rewrite H. reflexivity.
    + intros (before & after & H). destruct before as [|d before].
      * left. exists after. exact H.
      * right. exists before, after. now inversion H.
Qed.

(* ================================================================== *)
(** ** The description matcher *)
(* ================================================================== *)

Section SortFacts.
Context {A : Type} (key : A -> Z).

Let above (a b : A) : Prop := (key b <= key a)%Z.

Lemma insert_desc_perm (x : A) (l : list A) :
  Permutation (x :: l) (insert_desc key x l).
Proof.
  induction l as [|y l IH]; cbn [insert_desc].
  - apply Permutation_refl.
  - destruct (key x <? key y)%Z.
    + apply perm_trans with (y :: x :: l).
      * apply perm_swap.
      * apply perm_skip. exact IH.
    + apply Permutation_refl.
Qed.

Lemma sort_desc_perm (l : list A) : Permutation l (sort_desc key l).
Proof.
  induction l as [|x l IH]; cbn [sort_desc].
  - apply perm_nil.
  - apply perm_trans with (x :: sort_desc key l).
    + apply perm_skip. exact IH.
    + apply insert_desc_perm.
Qed.

Lemma insert_desc_sorted (x : A) (l : list A) :
  StronglySorted above l -> StronglySorted above (insert_desc key x l).
Proof.
  induction 1 as [|y l Hl IH Hy]; cbn [insert_desc].
  - constructor; constructor.
  - destruct (Z.ltb_spec (key x) (key y)) as [Hlt|Hge].
    + constructor; [exact IH|].
      apply (Permutation_Forall (insert_desc_perm x l)).
      constructor; [unfold above; lia | exact Hy].
    + constructor.
      * constructor; assumption.
      * constructor; [exact Hge|].
        apply Forall_impl with (P := above y); [|exact Hy].
        unfold above. intros z Hz. lia.
Qed.

Lemma sort_desc_sorted (l : list A) : StronglySorted above (sort_desc key l).
Proof.
  induction l as [|x l IH]; cbn [sort_desc].
  - constructor.
  - apply insert_desc_sorted. exact IH.
Qed.

(** Insertion never moves an element past one of its own key. *)
Lemma insert_desc_stable (s : Z) (x : A) (l : list A) :
  filter (fun a => (key a =? s)%Z) (insert_desc key x l)
  = filter (fun a => (key a =? s)%Z) (x :: l).
Proof.
  induction l as [|y l IH]; cbn [insert_desc].
  - reflexivity.
  - destruct (Z.ltb_spec (key x) (key y)) as [Hlt|Hge]; [|reflexivity].
    cbn [filter] in *. rewrite IH.
    destruct (Z.eqb_spec (key x) s) as [Hx|Hx];
      destruct (Z.eqb_spec (key y) s) as [Hy|Hy]; try reflexivity.
    lia.
Qed.

Lemma sort_desc_stable (s : Z) (l : list A) :
  filter (fun a => (key a =? s)%Z) (sort_desc key l)
  = filter (fun a => (key a =? s)%Z) l.
Proof.
  induction l as [|x l IH]; cbn [sort_desc].
  - reflexivity.
  - rewrite insert_desc_stable. cbn [filter]. rewrite IH. reflexivity.
Qed.
End SortFacts.

(** A [for term in terms] pass counts the terms found and appends them in
    table order. *)
Lemma scan_terms_counts (weight : Z) (text : string) (terms : list string)
    (st : Z * list string) :
  scan_terms weight text terms st
  = ((fst st + weight * Z.of_nat (length (hits text terms)))%Z,
     snd st ++ hits text terms).
Proof.
  unfold scan_terms, hits.
  revert st. induction terms as [|t terms IH]; intros [score matched].
  - cbn. rewrite Z.mul_0_r, Z.add_0_r, app_nil_r. reflexivity.
  - cbn [fold_left filter].
    destruct (PyStr.contains text t).
    + rewrite IH. cbn [fst snd length]. f_equal.
      * rewrite Nat2Z.inj_succ. lia.
      * rewrite <- app_assoc. reflexivity.
    + rewrite IH. reflexivity.
Qed.

Lemma keyword_mappings_resolved : Forall has_key_visual keyword_mappings.
Proof.
  unfold keyword_mappings.
  repeat (constructor; [do 2 eexists; split; reflexivity|]).
  constructor.
Qed.

Lemma match_step_counts (text : string) (matches : list candidate)
    (item : string * mapping) :
  has_key_visual item ->
  match_step text matches item
  = Ok (matches ++ counted_candidates text [item]).
Proof.
  intros (intrinsics & kv & Hrec & Hkv).
  destruct item as [key m]. cbn [fst] in Hrec.
  unfold match_step, counted_candidates. cbn [filter map snd].
  rewrite !scan_terms_counts. cbn [fst snd app].
  fold (counted_terms text m).
  replace (0 + 1 * Z.of_nat (length (hits text (keywords m)))
           + 3 * Z.of_nat (length (hits text (phrases m))))%Z
    with (counted_score text m) by (unfold counted_score; lia).
  rewrite Z.gtb_ltb.
  destruct (0 <? counted_score text m)%Z.
  - unfold dict_item. rewrite Hrec. cbn [bind]. rewrite Hkv. cbn [bind map].
    unfold counted_candidate, dict_get, dict_get_or. cbn [fst snd].
    rewrite Hrec, Hkv. reflexivity.
  - rewrite app_nil_r. reflexivity.
Qed.

Lemma counted_candidates_cons (text : string) (item : string * mapping)
    (items : dict mapping) :
  counted_candidates text (item :: items)
  = counted_candidates text [item] ++ counted_candidates text items.
Proof.
  unfold counted_candidates. cbn [filter].
  destruct (0 <? counted_score text (snd item))%Z; reflexivity.
Qed.

Lemma match_loop_counts (text : string) (items : dict mapping) :
  Forall has_key_visual items ->
  forall matches,
    match_loop text items matches
    = Ok (matches ++ counted_candidates text items).
Proof.
  induction 1 as [|item items Hitem _ IH]; intros matches;
    cbn [match_loop].
  - unfold counted_candidates. cbn. rewrite app_nil_r. reflexivity.
  - rewrite (match_step_counts _ _ _ Hitem). cbn [bind].
    rewrite IH, (counted_candidates_cons text item items), app_assoc.
    reflexivity.
Qed.

(** C3. The matcher lower-cases the text; scores each category by the
    number of its keywords found as substrings plus three times the number
    of its phrases found; records the matched terms in test order; drops the
    categories of score 0; ranks the rest by score, highest first, keeping
    table order among equal scores; and returns at most the first five.
    The text is of any kind: [str_lower] stands for [str.lower]. *)
Theorem match_description_ranking
    (str_lower : string -> string) (Hlower : lowers_ascii str_lower)
    (description : string) :
  let text := str_lower description in
  let candidates := counted_candidates text keyword_mappings in
  exists ranked,
    Unicode.match_description_to_phaseform str_lower description
      = Ok (firstn 5 ranked)
    /\ Permutation candidates ranked
    /\ StronglySorted by_score_desc ranked
    /\ (forall s, with_score s ranked = with_score s candidates)
    /\ Forall (fun c => (0 < confidence_score c)%Z) ranked
    /\ length (firstn 5 ranked) <= 5.
Proof.
  intros text candidates.
  exists (sort_desc confidence_score candidates).
  split; [|split; [|split; [|split; [|split]]]].
  - unfold Unicode.match_description_to_phaseform. fold text.
    rewrite (match_loop_counts text keyword_mappings keyword_mappings_resolved).
    reflexivity.
  - apply sort_desc_perm.
  - apply sort_desc_sorted.
  - intros s. apply sort_desc_stable.
  - apply (Permutation_Forall (sort_desc_perm confidence_score candidates)).
    subst candidates. unfold counted_candidates.
    apply Forall_map, Forall_forall. intros item Hin.
    apply filter_In in Hin. destruct Hin as [_ Hpos].
    cbn [counted_candidate confidence_score]. apply Z.ltb_lt. exact Hpos.
  - apply firstn_le_length.
Qed.

Lemma match_description_ranking_witness :
  lowers_ascii PyStr.lower
  /\ (let text := PyStr.lower "Dust SKIRT" in
      let candidates := counted_candidates text keyword_mappings in
      exists ranked,
        Unicode.match_description_to_phaseform PyStr.lower "Dust SKIRT"
          = Ok (firstn 5 ranked)
        /\ Permutation candidates ranked
        /\ StronglySorted by_score_desc ranked
        /\ (forall s, with_score s ranked = with_score s candidates)
        /\ Forall (fun c => (0 < confidence_score c)%Z) ranked
        /\ length (firstn 5 ranked) <= 5)
  /\ Unicode.match_description_to_phaseform PyStr.lower "Dust SKIRT"
     = Ok [ {| c_phase_form := "shock.mach_stem";
               confidence_score := 5;
               matched_terms := ["dust"; "skirt"; "dust skirt"];
               c_key_visual :=
                 CStr "dust skirt rising, ground shock visible, debris curtain" |} ].
Proof.
  split; [intros s _; reflexivity|]. split.
  - exact (match_description_ranking PyStr.lower
             (fun s _ => eq_refl) "Dust SKIRT").
  - vm_compute. reflexivity.
Defined.

(** C5. For "mushroom cloud forming with baroque fractal edges" the first
    candidate is "rise.cauliflower_cap", scored 8: the keywords "baroque" and
    "fractal" at 1 each and the phrases "mushroom cloud" and "fractal edges"
    at 3 each. *)
Theorem mushroom_cloud_ranks_cauliflower_cap_first :
  exists first rest,
    match_description_to_phaseform
      "mushroom cloud forming with baroque fractal edges"
    = Ok (first :: rest)
    /\ c_phase_form first = value RISE_CAULIFLOWER_CAP
    /\ c_phase_form first = "rise.cauliflower_cap"
    /\ (8 <= confidence_score first)%Z
    /\ confidence_score first = (1 + 1 + 3 + 3)%Z
    /\ matched_terms first
       = [ "baroque"; "fractal"; "mushroom cloud"; "fractal edges" ].
Proof.
  do 2 eexists. split; [vm_compute; reflexivity|].
  cbn [c_phase_form confidence_score matched_terms].
  repeat split. discriminate.
Qed.

(** The accepted false positive: "ring" is found inside "spring". *)
Example ring_inside_spring :
  exists rest,
    match_description_to_phaseform "spring"
    = Ok ({| c_phase_form := "shock.compression_disc";
             confidence_score := 1;
             matched_terms := ["ring"];
             c_key_visual :=
               CStr "visible ring of compressed air, refraction effects" |}
          :: rest).
Proof. eexists. vm_compute. reflexivity. Qed.

(** No overlap, no candidate. *)
Example empty_description_matches_nothing :
  match_description_to_phaseform "" = Ok [].
Proof. vm_compute. reflexivity. Qed.

(* ================================================================== *)
(** ** The composer, beyond the tables *)
(* ================================================================== *)

(** The sequence of assignments in [build_enhancement_output] comes to the
    output written in one piece. *)
Lemma build_enhancement_output_assembled
    text key intrinsics scale_mods env_mods era_mods affect_mods tmin tmax :
  cell_item (dict_get_or intrinsics "color_temperature_k" (CRange 5500 6500)) 0
    = Ok tmin ->
  cell_item (dict_get_or intrinsics "color_temperature_k" (CRange 5500 6500)) 1
    = Ok tmax ->
  build_enhancement_output text key intrinsics scale_mods env_mods
    era_mods affect_mods
  = Ok (assembled_output text key intrinsics scale_mods env_mods
          era_mods affect_mods tmin tmax).
Proof.
  intros Hmin Hmax.
  unfold build_enhancement_output, assembled_output. rewrite Hmin, Hmax.
  unfold synthesis, phrase_list, environment_phrases, debris_is_none,
    debris_phrase, atmosphere_phrase.
  cbn [bind].
  destruct (mods_truthy era_mods) eqn:He, (mods_truthy affect_mods) eqn:Ha,
           (dict_truthy scale_mods), (dict_truthy env_mods);
    destruct (cell_eqb (dict_get env_mods "debris_character") (CStr "none"));
    cbn -[cell_str dict_get mods_get PyStr.join firstn String.append];
    destruct era_mods, affect_mods; try discriminate; reflexivity.
Qed.

(** X1. What [build_enhancement_output] does is decided by the cell under
    [color_temperature_k]: a missing key stands for the range 5500..6500, a
    pair is subscripted, a present [None] raises [TypeError], and an ASCII
    string is subscripted character-wise, raising [IndexError] when it has
    fewer than two characters.  Nothing else in the function can fail. *)
Theorem color_temperature_decides_outcome
    text key intrinsics scale_mods env_mods era_mods affect_mods :
  (forall s,
     dict_lookup "color_temperature_k" intrinsics = Some (CStr s) ->
     is_ascii s = true) ->
  let run :=
    build_enhancement_output text key intrinsics scale_mods env_mods
      era_mods affect_mods in
  let built :=
    assembled_output text key intrinsics scale_mods env_mods
      era_mods affect_mods in
  match dict_lookup "color_temperature_k" intrinsics with
  | None => run = Ok (built (PInt 5500) (PInt 6500))
  | Some (CRange lo hi) => run = Ok (built (PInt lo) (PInt hi))
  | Some CNone => run = Raise TypeError
  | Some (CStr (String a (String b _))) =>
      run = Ok (built (PStr (String a EmptyString)) (PStr (String b EmptyString)))
  | Some (CStr _) => run = Raise IndexError
  end.
Proof.
  intros _ run built. subst run built.
  destruct (dict_lookup "color_temperature_k" intrinsics) as [c|] eqn:Hc.
  - destruct c as [|s|lo hi].
    + unfold build_enhancement_output, dict_get_or. rewrite Hc. reflexivity.
    + destruct s as [|a [|b s]].
      * unfold build_enhancement_output, dict_get_or. rewrite Hc. reflexivity.
      * unfold build_enhancement_output, dict_get_or. rewrite Hc. reflexivity.
      * apply build_enhancement_output_assembled;
          unfold dict_get_or; rewrite Hc; reflexivity.
    + apply build_enhancement_output_assembled;
        unfold dict_get_or; rewrite Hc; reflexivity.
  - apply build_enhancement_output_assembled;
      unfold dict_get_or; rewrite Hc; reflexivity.
Qed.

Lemma color_temperature_decides_outcome_witness :
  (forall s,
     dict_lookup "color_temperature_k" [ ("color_temperature_k", CStr "ab") ]
       = Some (CStr s) ->
     is_ascii s = true)
  /\ build_enhancement_output "a test" "rise.vortex_stem"
       [ ("color_temperature_k", CStr "ab") ] [] [] None None
     = Ok (assembled_output "a test" "rise.vortex_stem"
             [ ("color_temperature_k", CStr "ab") ] [] [] None None
             (PStr "a") (PStr "b"))
  /\ build_enhancement_output "a test" "rise.vortex_stem"
       [ ("color_temperature_k", CStr "a") ] [] [] None None
     = Raise IndexError.
Proof.
  assert (Hab : forall s,
    dict_lookup "color_temperature_k" [ ("color_temperature_k", CStr "ab") ]
      = Some (CStr s) ->
    is_ascii s = true).
  { intros s H. cbn in H. injection H as <-. reflexivity. }
  split; [exact Hab|]. split.
  - exact (color_temperature_decides_outcome "a test" "rise.vortex_stem"
             [ ("color_temperature_k", CStr "ab") ] [] [] None None Hab).
  - apply (color_temperature_decides_outcome "a test" "rise.vortex_stem"
             [ ("color_temperature_k", CStr "a") ] [] [] None None).
    intros s H. cbn in H. injection H as <-. reflexivity.
Defined.

Lemma intrinsics_range (pf : PhaseForm) :
  exists lo hi,
    dict_lookup "color_temperature_k" (record_of PHASEFORM_INTRINSICS pf)
      = Some (CRange lo hi)
    /\ (2000 <= lo)%Z /\ (lo < hi)%Z /\ (hi <= 50000)%Z.
Proof. destruct pf; do 2 eexists; (split; [reflexivity|]); lia. Qed.

(** The tool's output in one piece. *)
Lemma enhance_nuclear_aesthetic_assembled
    (params : EnhanceNuclearAestheticInput) :
  exists lo hi,
    dict_lookup "color_temperature_k"
      (record_of PHASEFORM_INTRINSICS (phase_form params))
      = Some (CRange lo hi)
    /\ (2000 <= lo)%Z /\ (lo < hi)%Z /\ (hi <= 50000)%Z
    /\ enhance_nuclear_aesthetic params
       = Ok (assembled_output (prompt params) (value (phase_form params))
               (record_of PHASEFORM_INTRINSICS (phase_form params))
               (record_of SCALE_MODIFIERS (scale_in_force params))
               (record_of ENVIRONMENT_MODIFIERS (environment_in_force params))
               (option_map (record_of ERA_MODIFIERS) (era params))
               (option_map (record_of AFFECT_MODIFIERS) (affect params))
               (PInt lo) (PInt hi)).
Proof.
  destruct params as [text pf s e r a].
  cbn [prompt phase_form scale environment era affect].
  destruct (intrinsics_range pf) as (lo & hi & Hrange & Hlo & Hlt & Hhi).
  exists lo, hi. repeat (split; [assumption|]).
  unfold enhance_nuclear_aesthetic, scale_in_force, environment_in_force.
  cbn [prompt phase_form scale environment era affect].
  rewrite scale_mods_resolved, env_mods_resolved.
  rewrite (proj1 (era_mods_resolved r)), (proj1 (affect_mods_resolved a)).
  fold (record_of PHASEFORM_INTRINSICS pf).
  apply build_enhancement_output_assembled;
    unfold dict_get_or; rewrite Hrange; reflexivity.
Qed.

(** X2. The colour temperature reported under [luminous] is the pair of the
    phase form's record, read as [min] and [max]; for every phase form the
    minimum is below the maximum and both lie between 2000 K and 50000 K. *)
Theorem color_temperature_min_below_max
    (params : EnhanceNuclearAestheticInput) :
  exists out lo hi,
    enhance_nuclear_aesthetic params = Ok out
    /\ dict_lookup "color_temperature_k"
         (record_of PHASEFORM_INTRINSICS (phase_form params))
       = Some (CRange lo hi)
    /\ obj_path out
         ["visual_parameters"; "luminous"; "color_temperature_k"; "min"]
       = Ok (PInt lo)
    /\ obj_path out
         ["visual_parameters"; "luminous"; "color_temperature_k"; "max"]
       = Ok (PInt hi)
    /\ (2000 <= lo)%Z /\ (lo < hi)%Z /\ (hi <= 50000)%Z.
Proof.
  destruct (enhance_nuclear_aesthetic_assembled params)
    as (lo & hi & Hrange & Hlo & Hlt & Hhi & Hout).
  eexists. exists lo, hi.
  split; [exact Hout|]. split; [exact Hrange|].
  split; [reflexivity|]. split; [reflexivity|].
  repeat split; assumption.
Qed.

(** X3. The three tools that report on a phase form agree: the fields the
    composer files under its four mandatory facets are those
    [get_phase_form_details] returns for the same phase form, and the three
    that [list_phase_forms] shows are among them, whatever modifiers the
    composer was given. *)
Theorem tools_agree_on_intrinsics (params : EnhanceNuclearAestheticInput) :
  let details := get_phase_form_details (phase_form params) in
  let entry := phase_form_entry (phase_form params) in
  exists out,
    enhance_nuclear_aesthetic params = Ok out
    /\ obj_path out ["visual_parameters"; "luminous"; "regime"]
       = obj_path details ["intrinsic_properties"; "luminous_regime"]
    /\ obj_path out ["visual_parameters"; "luminous"; "luminosity"]
       = obj_path details ["intrinsic_properties"; "luminosity"]
    /\ obj_path out ["visual_parameters"; "luminous"; "contrast"]
       = obj_path details ["intrinsic_properties"; "contrast"]
    /\ obj_path out ["visual_parameters"; "morphological"; "form"]
       = obj_path details ["intrinsic_properties"; "form"]
    /\ obj_path out ["visual_parameters"; "morphological"; "key_visual"]
       = obj_path details ["intrinsic_properties"; "key_visual"]
    /\ obj_path out ["visual_parameters"; "atmospheric"; "state"]
       = obj_path details ["intrinsic_properties"; "atmospheric_state"]
    /\ obj_path out ["visual_parameters"; "temporal"; "duration_reference"]
       = obj_path details ["intrinsic_properties"; "duration_reference"]
    /\ obj_path entry ["key_visual"]
       = obj_path details ["intrinsic_properties"; "key_visual"]
    /\ obj_path entry ["duration_reference"]
       = obj_path details ["intrinsic_properties"; "duration_reference"]
    /\ obj_path entry ["luminous_regime"]
       = obj_path details ["intrinsic_properties"; "luminous_regime"]
    /\ obj_path out ["phase_form"] = obj_path details ["phase_form"]
    /\ (exists s, obj_path details ["intrinsic_properties"; "key_visual"]
                  = Ok (PStr s)).
Proof.
  intros details entry. subst details entry.
  destruct (enhance_nuclear_aesthetic_assembled params)
    as (lo & hi & _ & _ & _ & _ & Hout).
  eexists. split; [exact Hout|].
  destruct (phase_form params);
    repeat (split; [reflexivity|]); eexists; reflexivity.
Qed.

(** X4. The synthesized text never shows an era or an affect: its six phrases
    are the three primary ones, the two scale ones and one environment
    phrase (the debris phrase, or the atmosphere phrase when
    [debris_character] is "none"), so the request without era and affect
    yields the same text. *)
Theorem synthesized_prompt_ignores_era_and_affect
    (params : EnhanceNuclearAestheticInput) :
  let env := record_of ENVIRONMENT_MODIFIERS (environment_in_force params) in
  let six :=
    primary_phrases (record_of PHASEFORM_INTRINSICS (phase_form params))
    ++ scale_phrases (record_of SCALE_MODIFIERS (scale_in_force params))
    ++ [leading_environment_phrase env] in
  exists out plain,
    enhance_nuclear_aesthetic params = Ok out
    /\ enhance_nuclear_aesthetic (without_era_and_affect params) = Ok plain
    /\ obj_item out "synthesized_prompt"
       = Ok (PStr ((prompt params ++ ", ") ++ PyStr.join ", " six)%string)
    /\ obj_item plain "synthesized_prompt" = obj_item out "synthesized_prompt".
Proof.
  intros env six.
  destruct (enhance_nuclear_aesthetic_spec params)
    as (out & _ & _ & Hout & _ & _ & _ & _ & _ & _ & _ & _ & Hsyn).
  destruct (enhance_nuclear_aesthetic_spec (without_era_and_affect params))
    as (plain & _ & _ & Hplain & _ & _ & _ & _ & _ & _ & _ & _ & Hsyn').
  assert (Hsix : forall q,
    scale_in_force q = scale_in_force params ->
    environment_in_force q = environment_in_force params ->
    phase_form q = phase_form params ->
    firstn 6 (expected_elements q) = six).
  { intros q Hs He Hp. unfold expected_elements.
    rewrite Hs, He, Hp. fold env. subst six.
    unfold environment_phrases, leading_environment_phrase, debris_is_none.
    destruct (cell_eqb (dict_get env "debris_character") (CStr "none"));
      reflexivity. }
  exists out, plain.
  split; [exact Hout|]. split; [exact Hplain|].
  rewrite Hsyn, Hsyn'. unfold synthesis.
  rewrite (Hsix params), (Hsix (without_era_and_affect params));
    try reflexivity.
  split; reflexivity.
Qed.

(** X5. The phrase list has seven entries before era and affect, six under the
    "space" environment (the only one whose debris is "none"), plus three for
    a given era and two for a given affect: between 6 and 12 in all. *)
Theorem phrase_count (params : EnhanceNuclearAestheticInput) :
  exists out elements,
    enhance_nuclear_aesthetic params = Ok out
    /\ obj_item out "enhanced_prompt_elements" = Ok (of_strings elements)
    /\ length elements
       = (match environment_in_force params with SPACE => 6 | _ => 7 end)
         + (if is_given (era params) then 3 else 0)
         + (if is_given (affect params) then 2 else 0)
    /\ length elements <= 12.
Proof.
  destruct (enhance_nuclear_aesthetic_spec params)
    as (out & _ & _ & Hout & _ & _ & _ & _ & _ & _ & _ & Hel & _).
  exists out, (expected_elements params).
  split; [exact Hout|]. split; [exact Hel|].
  assert (Hlen : length (expected_elements params)
    = (match environment_in_force params with SPACE => 6 | _ => 7 end)
      + (if is_given (era params) then 3 else 0)
      + (if is_given (affect params) then 2 else 0)).
  { unfold expected_elements. rewrite !length_app.
    destruct (environment_in_force params), (era params), (affect params);
      reflexivity. }
  split; [exact Hlen|]. rewrite Hlen.
  destruct (environment_in_force params), (era params), (affect params);
    cbn; lia.
Qed.

(** X6. An era brings its whole record under [modifiers_applied] and a
    [capture] facet of three of its fields (two of them renamed: [grain],
    [camera]); an affect brings its record and a [composition] facet.
    Without the modifier both keys are absent: reading them raises
    [KeyError], there is no null placeholder. *)
Theorem optional_facets_mirror_their_records
    (params : EnhanceNuclearAestheticInput) :
  exists out,
    enhance_nuclear_aesthetic params = Ok out
    /\ match era params with
       | Some e =>
           let r := record_of ERA_MODIFIERS e in
           obj_path out ["modifiers_applied"; "era"] = Ok (of_record r)
           /\ obj_path out ["visual_parameters"; "capture"]
              = Ok (PDict
                      [ ("color_science", of_cell (dict_get r "color_science"));
                        ("grain", of_cell (dict_get r "grain_structure"));
                        ("camera",
                         of_cell (dict_get r "camera_characteristics")) ])
       | None =>
           obj_path out ["modifiers_applied"; "era"] = Raise KeyError
           /\ obj_path out ["visual_parameters"; "capture"] = Raise KeyError
       end
    /\ match affect params with
       | Some a =>
           let r := record_of AFFECT_MODIFIERS a in
           obj_path out ["modifiers_applied"; "affect"] = Ok (of_record r)
           /\ obj_path out ["visual_parameters"; "composition"]
              = Ok (PDict
                      [ ("framing", of_cell (dict_get r "framing"));
                        ("emotional_register",
                         of_cell (dict_get r "emotional_register"));
                        ("detail_focus", of_cell (dict_get r "detail_focus")) ])
       | None =>
           obj_path out ["modifiers_applied"; "affect"] = Raise KeyError
           /\ obj_path out ["visual_parameters"; "composition"] = Raise KeyError
       end.
Proof.
  destruct (enhance_nuclear_aesthetic_assembled params)
    as (lo & hi & _ & _ & _ & _ & Hout).
  eexists. split; [exact Hout|].
  destruct (era params) as [[]|], (affect params) as [[]|];
    repeat split; reflexivity.
Qed.

(** X7. The output always has the same six top-level keys in the same order,
    and echoes the prompt and the phase form's identifier. *)
Theorem output_top_level_shape (params : EnhanceNuclearAestheticInput) :
  exists out,
    enhance_nuclear_aesthetic params = Ok out
    /\ obj_keys out
       = [ "original_prompt"; "phase_form"; "enhanced_prompt_elements";
           "visual_parameters"; "modifiers_applied"; "synthesized_prompt" ]
    /\ obj_item out "original_prompt" = Ok (PStr (prompt params))
    /\ obj_item out "phase_form" = Ok (PStr (value (phase_form params))).
Proof.
  destruct (enhance_nuclear_aesthetic_assembled params)
    as (lo & hi & _ & _ & _ & _ & Hout).
  eexists. split; [exact Hout|]. repeat split; reflexivity.
Qed.

(** X8. No phrase of the list is built from a missing field: the text "None",
    which formatting an absent value would give, occurs in none of them. *)
Theorem phrases_never_show_a_missing_field
    (params : EnhanceNuclearAestheticInput) :
  exists out elements,
    enhance_nuclear_aesthetic params = Ok out
    /\ obj_item out "enhanced_prompt_elements" = Ok (of_strings elements)
    /\ Forall (fun phrase => PyStr.contains phrase "None" = false) elements.
Proof.
  destruct (enhance_nuclear_aesthetic_spec params)
    as (out & _ & _ & Hout & _ & _ & _ & _ & _ & _ & _ & Hel & _).
  exists out, (expected_elements params).
  split; [exact Hout|]. split; [exact Hel|].
  unfold expected_elements. repeat (apply Forall_app; split).
  - destruct (phase_form params);
      repeat (constructor; [vm_compute; reflexivity|]); constructor.
  - destruct (scale_in_force params);
      repeat (constructor; [vm_compute; reflexivity|]); constructor.
  - destruct (environment_in_force params);
      repeat (constructor; [vm_compute; reflexivity|]); constructor.
  - destruct (environment_in_force params);
      repeat (constructor; [vm_compute; reflexivity|]); constructor.
  - destruct (era params) as [[]|];
      repeat (constructor; [vm_compute; reflexivity|]); constructor.
  - destruct (affect params) as [[]|];
      repeat (constructor; [vm_compute; reflexivity|]); constructor.
Qed.

(* ================================================================== *)
(** ** The matcher, beyond the ranking *)
(* ================================================================== *)

Lemma match_description_unfolded (description : string) :
  match_description_to_phaseform description
  = Ok (firstn 5
          (sort_desc confidence_score
             (counted_candidates (PyStr.lower description) keyword_mappings))).
Proof.
  unfold match_description_to_phaseform.
  rewrite (match_loop_counts _ keyword_mappings keyword_mappings_resolved).
  reflexivity.
Qed.

Lemma Forall_firstn_of {A : Type} (P : A -> Prop) (n : nat) (l : list A) :
  Forall P l -> Forall P (firstn n l).
Proof.
  intros H. rewrite <- (firstn_skipn n l) in H.
  apply Forall_app in H. exact (proj1 H).
Qed.

Lemma NoDup_firstn_of {A : Type} (n : nat) (l : list A) :
  NoDup l -> NoDup (firstn n l).
Proof.
  intros H. rewrite <- (firstn_skipn n l) in H.
  exact (NoDup_app_remove_r _ _ H).
Qed.

(** What holds of every scored category holds of every returned
    candidate. *)
Lemma returned_candidates_Forall (P : candidate -> Prop) (text : string) :
  (forall item,
     In item keyword_mappings ->
     (0 < counted_score text (snd item))%Z ->
     P (counted_candidate text item)) ->
  Forall P
    (firstn 5
       (sort_desc confidence_score (counted_candidates text keyword_mappings))).
Proof.
  intros H. apply Forall_firstn_of.
  apply (Permutation_Forall (sort_desc_perm confidence_score _)).
  unfold counted_candidates. apply Forall_map, Forall_forall.
  intros item Hin. apply filter_In in Hin. destruct Hin as [Hin Hpos].
  apply H; [exact Hin | apply Z.ltb_lt; exact Hpos].
Qed.

Lemma keyword_mappings_lookup :
  Forall
    (fun item : string * mapping =>
       dict_lookup (fst item) keyword_mappings = Some (snd item)
       /\ In (fst item) (map value (members (E := PhaseForm)))
       /\ length (keywords (snd item)) <= 6
       /\ length (phrases (snd item)) <= 4)
    keyword_mappings.
Proof.
  unfold keyword_mappings.
  repeat (constructor;
          [split; [reflexivity|]; split; [cbn; tauto | cbn; lia]|]).
  constructor.
Qed.

Lemma hits_found (text : string) (terms : list string) (t : string) :
  In t (hits text terms) ->
  In t terms /\ exists before after, text = (before ++ t ++ after)%string.
Proof.
  unfold hits. intros H. apply filter_In in H. destruct H as [Hin Hc].
  split; [exact Hin|]. apply contains_iff_substring. exact Hc.
Qed.

Lemma match_description_unfolded_any (str_lower : string -> string)
    (description : string) :
  Unicode.match_description_to_phaseform str_lower description
  = Ok (firstn 5
          (sort_desc confidence_score
             (counted_candidates (str_lower description) keyword_mappings))).
Proof.
  unfold Unicode.match_description_to_phaseform.
  rewrite (match_loop_counts _ keyword_mappings keyword_mappings_resolved).
  reflexivity.
Qed.

(** X9. Every returned candidate names a category of the table, and each of its
    matched terms is a keyword or phrase of that category that occurs in the
    lower-cased description as a literal substring.  The description is text
    of any kind: [str_lower] stands for [str.lower]. *)
Theorem matched_terms_occur_in_description
    (str_lower : string -> string) (Hlower : lowers_ascii str_lower)
    (description : string) :
  exists result,
    Unicode.match_description_to_phaseform str_lower description = Ok result
    /\ Forall
         (fun c =>
            exists m,
              dict_lookup (c_phase_form c) keyword_mappings = Some m
              /\ Forall
                   (fun t =>
                      In t (all_terms m)
                      /\ exists before after,
                           str_lower description
                           = (before ++ t ++ after)%string)
                   (matched_terms c))
         result.
Proof.
  eexists. split; [apply match_description_unfolded_any|].
  apply returned_candidates_Forall. intros item Hin _.
  pose proof (proj1 (Forall_forall _ _) keyword_mappings_lookup item Hin)
    as (Hlook & _).
  exists (snd item). split; [exact Hlook|].
  cbn [counted_candidate matched_terms]. unfold counted_terms, all_terms.
  apply Forall_forall. intros t Ht.
  apply in_app_or in Ht. destruct Ht as [Ht|Ht];
    apply hits_found in Ht; destruct Ht as [Hin' Hsub];
    (split; [apply in_or_app; auto | exact Hsub]).
Qed.

Lemma matched_terms_occur_in_description_witness :
  lowers_ascii PyStr.lower
  /\ exists result,
       Unicode.match_description_to_phaseform PyStr.lower "A Rising COLUMN"
         = Ok result
       /\ Forall
            (fun c =>
               exists m,
                 dict_lookup (c_phase_form c) keyword_mappings = Some m
                 /\ Forall
                      (fun t =>
                         In t (all_terms m)
                         /\ exists before after,
                              PyStr.lower "A Rising COLUMN"
                              = (before ++ t ++ after)%string)
                      (matched_terms c))
            result.
Proof.
  split; [intros s _; reflexivity|].
  exact (matched_terms_occur_in_description PyStr.lower
           (fun s _ => eq_refl) "A Rising COLUMN").
Defined.

Lemma hits_positive (text : string) (terms : list string) :
  (0 <? Z.of_nat (length (hits text terms)))%Z
  = existsb (PyStr.contains text) terms.
Proof.
  unfold hits. induction terms as [|t terms IH]; cbn [filter existsb].
  - reflexivity.
  - destruct (PyStr.contains text t); cbn [orb length].
    + apply Z.ltb_lt. lia.
    + exact IH.
Qed.

(** A category scores above zero exactly when one of its terms occurs. *)
Lemma counted_score_positive (text : string) (m : mapping) :
  (0 <? counted_score text m)%Z
  = existsb (PyStr.contains text) (all_terms m).
Proof.
  unfold counted_score, all_terms. rewrite existsb_app.
  rewrite <- !hits_positive.
  destruct (Z.ltb_spec 0 (Z.of_nat (length (hits text (keywords m)))));
    destruct (Z.ltb_spec 0 (Z.of_nat (length (hits text (phrases m)))));
    cbn [orb]; try (apply Z.ltb_lt; lia); apply Z.ltb_ge; lia.
Qed.

Lemma counted_candidates_length (text : string) :
  length (counted_candidates text keyword_mappings) = categories_hit text.
Proof.
  unfold counted_candidates, categories_hit. rewrite length_map.
  f_equal. apply filter_ext. intros item. apply counted_score_positive.
Qed.

Lemma categories_hit_zero (text : string) :
  categories_hit text = 0 <-> no_term_found text = true.
Proof.
  unfold categories_hit, no_term_found.
  induction keyword_mappings as [|item items IH]; cbn [filter forallb length].
  - split; reflexivity.
  - assert (Hneg : forallb (fun t => negb (PyStr.contains text t))
                     (all_terms (snd item))
                   = negb (existsb (PyStr.contains text) (all_terms (snd item)))).
    { induction (all_terms (snd item)) as [|t ts IHt]; cbn [forallb existsb].
      - reflexivity.
      - rewrite IHt, negb_orb. reflexivity. }
    rewrite Hneg.
    destruct (existsb (PyStr.contains text) (all_terms (snd item)));
      cbn [negb andb length].
    + split; discriminate.
    + exact IH.
Qed.

Lemma returned_candidates_length (text : string) :
  length (firstn 5
            (sort_desc confidence_score
               (counted_candidates text keyword_mappings)))
  = Nat.min 5 (categories_hit text).
Proof.
  rewrite length_firstn.
  rewrite <- (Permutation_length (sort_desc_perm confidence_score _)).
  rewrite counted_candidates_length. reflexivity.
Qed.

Lemma returned_candidates_nil (text : string) :
  firstn 5
    (sort_desc confidence_score (counted_candidates text keyword_mappings)) = []
  <-> no_term_found text = true.
Proof.
  pose proof (returned_candidates_length text) as Hlen.
  rewrite <- categories_hit_zero. split.
  - intros Hnil. rewrite Hnil in Hlen. cbn [length] in Hlen. lia.
  - intros Hzero. rewrite Hzero in Hlen. apply length_zero_iff_nil.
    rewrite Hlen. reflexivity.
Qed.

(** X10. The matcher returns as many candidates as there are categories with a
    term in the text, up to five; in particular it returns the empty list
    exactly when no keyword and no phrase of any category occurs in the
    lower-cased description.  The description is text of any kind:
    [str_lower] stands for [str.lower]. *)
Theorem match_count_and_emptiness
    (str_lower : string -> string) (Hlower : lowers_ascii str_lower)
    (description : string) :
  exists result,
    Unicode.match_description_to_phaseform str_lower description = Ok result
    /\ length result = Nat.min 5 (categories_hit (str_lower description))
    /\ (result = [] <-> no_term_found (str_lower description) = true).
Proof.
  eexists. split; [apply match_description_unfolded_any|].
  split; [apply returned_candidates_length | apply returned_candidates_nil].
Qed.

Lemma match_count_and_emptiness_witness :
  lowers_ascii PyStr.lower
  /\ (exists result,
        Unicode.match_description_to_phaseform PyStr.lower "A Rising COLUMN"
          = Ok result
        /\ length result
           = Nat.min 5 (categories_hit (PyStr.lower "A Rising COLUMN"))
        /\ (result = []
            <-> no_term_found (PyStr.lower "A Rising COLUMN") = true))
  /\ categories_hit (PyStr.lower "A Rising COLUMN") = 1.
Proof.
  split; [intros s _; reflexivity|]. split.
  - exact (match_count_and_emptiness PyStr.lower
             (fun s _ => eq_refl) "A Rising COLUMN").
  - vm_compute. reflexivity.
Defined.

(** X11. [suggest_phase_form] never fails.  With no term of any category in the
    lower-cased description it answers with an empty suggestion list and the
    no-match message, and does not echo the description; otherwise it echoes
    the description and carries the matcher's one to five candidates, in
    the matcher's order.  The description is text of any kind: [str_lower]
    stands for [str.lower]. *)
Theorem suggest_phase_form_answers
    (str_lower : string -> string) (Hlower : lowers_ascii str_lower)
    (params : SuggestPhaseFormInput) :
  exists out,
    Unicode.suggest_phase_form str_lower params = Ok out
    /\ if no_term_found (str_lower (description params))
       then out = PDict [ ("suggestions", PList []);
                          ("message", PStr no_match_message) ]
       else exists matches,
              Unicode.match_description_to_phaseform str_lower
                (description params) = Ok matches
              /\ out = PDict [ ("description", PStr (description params));
                               ("suggestions", PList (map of_candidate matches)) ]
              /\ 1 <= length matches <= 5.
Proof.
  pose proof (match_description_unfolded_any str_lower (description params))
    as Hres.
  pose proof (returned_candidates_length (str_lower (description params)))
    as Hlen.
  pose proof (returned_candidates_nil (str_lower (description params)))
    as Hnil.
  set (result := firstn 5 _) in Hres, Hlen, Hnil.
  unfold Unicode.suggest_phase_form. rewrite Hres. cbn [bind].
  destruct (no_term_found (str_lower (description params))) eqn:Hno.
  - rewrite (proj2 Hnil eq_refl). eexists. split; reflexivity.
  - destruct result as [|c rest].
    + pose proof (proj1 Hnil eq_refl) as H. discriminate H.
    + eexists. split; [reflexivity|].
      exists (c :: rest). split; [reflexivity|]. split; [reflexivity|].
      rewrite Hlen. cbn [length] in Hlen. lia.
Qed.

Lemma suggest_phase_form_answers_witness :
  lowers_ascii PyStr.lower
  /\ (exists out,
        Unicode.suggest_phase_form PyStr.lower
          {| description := "Quiet meadow" |} = Ok out
        /\ if no_term_found (PyStr.lower "Quiet meadow")
           then out = PDict [ ("suggestions", PList []);
                              ("message", PStr no_match_message) ]
           else exists matches,
                  Unicode.match_description_to_phaseform PyStr.lower
                    "Quiet meadow" = Ok matches
                  /\ out = PDict [ ("description", PStr "Quiet meadow");
                                   ("suggestions",
                                    PList (map of_candidate matches)) ]
                  /\ 1 <= length matches <= 5)
  /\ no_term_found (PyStr.lower "Quiet meadow") = true.
Proof.
  split; [intros s _; reflexivity|]. split.
  - exact (suggest_phase_form_answers PyStr.lower
             (fun s _ => eq_refl) {| description := "Quiet meadow" |}).
  - vm_compute. reflexivity.
Defined.

Lemma lower_char_idempotent (c : ascii) :
  PyStr.lower_char (PyStr.lower_char c) = PyStr.lower_char c.
Proof.
  destruct c as [[] [] [] [] [] [] [] []]; reflexivity.
Qed.

Lemma lower_idempotent (s : string) : PyStr.lower (PyStr.lower s) = PyStr.lower s.
Proof.
  induction s as [|c s IH]; cbn [PyStr.lower].
  - reflexivity.
  - rewrite lower_char_idempotent, IH. reflexivity.
Qed.

(** X12. The matcher is case-insensitive: two descriptions that differ only in
    letter case get the same candidates. *)
Theorem match_ignores_case (d1 d2 : string) :
  PyStr.lower d1 = PyStr.lower d2 ->
  match_description_to_phaseform d1 = match_description_to_phaseform d2.
Proof.
  intros H. rewrite !match_description_unfolded, H. reflexivity.
Qed.

Lemma match_ignores_case_witness :
  PyStr.lower "Mushroom CLOUD, Baroque" = PyStr.lower "mushroom cloud, baroque"
  /\ match_description_to_phaseform "Mushroom CLOUD, Baroque"
     = match_description_to_phaseform "mushroom cloud, baroque".
Proof.
  split.
  - reflexivity.
  - apply (match_ignores_case "Mushroom CLOUD, Baroque" "mushroom cloud, baroque").
    reflexivity.
Defined.

Lemma NoDup_keys_filter {V : Type} (f : string * V -> bool) (d : dict V) :
  NoDup (dict_keys d) -> NoDup (dict_keys (filter f d)).
Proof.
  unfold dict_keys. induction d as [|kv d IH]; cbn [filter map]; intros H.
  - constructor.
  - inversion H as [|k ks Hnotin Hrest]; subst.
    destruct (f kv); [|exact (IH Hrest)].
    cbn [map]. constructor; [|exact (IH Hrest)].
    intros Hin. apply Hnotin.
    apply in_map_iff in Hin. destruct Hin as (kv' & Hk & Hin).
    apply filter_In in Hin. apply in_map_iff. exists kv'. tauto.
Qed.

Lemma keyword_mappings_keys_distinct : NoDup (dict_keys keyword_mappings).
Proof.
  unfold keyword_mappings, dict_keys. cbn [map fst].
  repeat (constructor;
          [cbn [In]; intros H;
           repeat (destruct H as [H|H]; [discriminate H|]); exact H|]).
  constructor.
Qed.

(** X13. No category is returned twice, and every returned identifier is the
    value of a phase form. *)
Theorem returned_categories_are_distinct_phase_forms (description : string) :
  exists result,
    match_description_to_phaseform description = Ok result
    /\ NoDup (map c_phase_form result)
    /\ Forall
         (fun c => exists pf : PhaseForm, c_phase_form c = value pf)
         result.
Proof.
  eexists. split; [apply match_description_unfolded|]. split.
  - rewrite <- firstn_map. apply NoDup_firstn_of.
    apply (Permutation_NoDup
             (Permutation_map c_phase_form
                (sort_desc_perm confidence_score _))).
    unfold counted_candidates. rewrite map_map. cbn [counted_candidate c_phase_form].
    apply (NoDup_keys_filter _ keyword_mappings).
    apply keyword_mappings_keys_distinct.
  - apply returned_candidates_Forall. intros item Hin _.
    pose proof (proj1 (Forall_forall _ _) keyword_mappings_lookup item Hin)
      as (_ & Hmem & _).
    cbn [counted_candidate c_phase_form].
    apply in_map_iff in Hmem. destruct Hmem as (pf & Hpf & _).
    exists pf. symmetry. exact Hpf.
Qed.

(** X14. Scores are bounded by the table: a returned candidate scores between 1
    and 18, has between one and ten matched terms, and its score lies
    between the number of its matched terms and three times that number. *)
Theorem returned_scores_are_bounded (description : string) :
  exists result,
    match_description_to_phaseform description = Ok result
    /\ Forall
         (fun c =>
            (1 <= confidence_score c <= 18)%Z
            /\ 1 <= length (matched_terms c) <= 10
            /\ (Z.of_nat (length (matched_terms c)) <= confidence_score c
                <= 3 * Z.of_nat (length (matched_terms c)))%Z)
         result.
Proof.
  eexists. split; [apply match_description_unfolded|].
  apply returned_candidates_Forall. intros item Hin Hpos.
  pose proof (proj1 (Forall_forall _ _) keyword_mappings_lookup item Hin)
    as (_ & _ & Hk & Hp).
  cbn [counted_candidate confidence_score matched_terms].
  unfold counted_score, counted_terms in *. rewrite length_app.
  pose proof (filter_length_le (PyStr.contains (PyStr.lower description))
                (keywords (snd item))) as Hk'.
  pose proof (filter_length_le (PyStr.contains (PyStr.lower description))
                (phrases (snd item))) as Hp'.
  unfold hits in *. lia.
Qed.

(** X15. The first candidate carries the highest score of the whole table: no
    category counts more than it, returned or not. *)
Theorem first_candidate_has_the_highest_score (description : string) :
  exists result,
    match_description_to_phaseform description = Ok result
    /\ match result with
       | [] => no_term_found (PyStr.lower description) = true
       | first :: _ =>
           Forall
             (fun item : string * mapping =>
                (counted_score (PyStr.lower description) (snd item)
                 <= confidence_score first)%Z)
             keyword_mappings
       end.
Proof.
  eexists. split; [apply match_description_unfolded|].
  set (text := PyStr.lower description).
  set (cands := counted_candidates text keyword_mappings).
  pose proof (sort_desc_perm confidence_score cands) as Hperm.
  pose proof (sort_desc_sorted confidence_score cands) as Hsorted.
  pose proof (returned_candidates_nil text) as Hnil. fold cands in Hnil.
  destruct (sort_desc confidence_score cands) as [|first rest] eqn:Hs.
  - cbn [firstn]. apply Hnil. reflexivity.
  - cbn [firstn]. apply Forall_forall. intros item Hin.
    apply StronglySorted_inv in Hsorted. destruct Hsorted as [_ Hfirst].
    assert (Hpos : (0 < confidence_score first)%Z).
    { assert (Hin' : In first cands)
        by (apply (Permutation_in _ (Permutation_sym Hperm)); left; reflexivity).
      unfold cands, counted_candidates in Hin'.
      apply in_map_iff in Hin'. destruct Hin' as (it & <- & Hit).
      apply filter_In in Hit. apply Z.ltb_lt. exact (proj2 Hit). }
    destruct (Z.ltb_spec 0 (counted_score text (snd item))) as [Hp|Hn]; [|lia].
    assert (Hc : In (counted_candidate text item) (first :: rest)).
    { apply (Permutation_in _ Hperm). unfold cands, counted_candidates.
      apply in_map, filter_In. split; [exact Hin | apply Z.ltb_lt; exact Hp]. }
    destruct Hc as [Heq|Hrest].
    + rewrite Heq. cbn [counted_candidate confidence_score]. lia.
    + pose proof (proj1 (Forall_forall _ _) Hfirst _ Hrest) as Hle.
      cbn [counted_candidate confidence_score] in Hle. exact Hle.
Qed.

(* ================================================================== *)
(** ** The listing tools, beyond the prefix filter *)
(* ================================================================== *)

Lemma list_phase_forms_as_filter (params : ListPhaseFormsInput) :
  list_phase_forms params
  = listing (filter (fun pf => passes_filter params (value pf)) members).
Proof.
  unfold list_phase_forms, listing.
  rewrite listed_phase_forms_filter. reflexivity.
Qed.

Lemma lower_empty (s : string) : PyStr.lower s = EmptyString -> s = EmptyString.
Proof. destruct s; [reflexivity | discriminate]. Qed.

Lemma listing_length (a b : list PhaseForm) :
  listing a = listing b -> length a = length b.
Proof.
  intros H.
  assert (Hlen : forall l,
    length l
    = match listing l with
      | PDict [(_, PList r)] => length r
      | _ => 0
      end)
    by (intros l; unfold listing; rewrite length_map; reflexivity).
  rewrite (Hlen a), (Hlen b), H. reflexivity.
Qed.

(** X16. The listing is the whole enumeration, in declaration order, exactly
    when the filter is absent or the empty string: an empty filter counts as
    no filter, and no other filter fits all 14 identifiers. *)
Theorem listing_is_complete_iff_no_filter (params : ListPhaseFormsInput) :
  list_phase_forms params = listing members
  <-> phase_filter params = None \/ phase_filter params = Some EmptyString.
Proof.
  rewrite list_phase_forms_as_filter. split.
  - intros H. destruct params as [[f|]]; [|left; reflexivity].
    right. cbn [phase_filter]. f_equal. apply lower_empty.
    apply listing_length, filter_length_forallb in H.
    rewrite forallb_forall in H.
    assert (Hi := H INITIATION_RADIANT_POINT).
    assert (Hf := H FIREBALL_PLASMA_CORE).
    rewrite passes_filter_startswith in Hi, Hf.
    unfold PyStr.startswith in Hi, Hf.
    destruct (PyStr.lower f) as [|c rest]; [reflexivity|].
    assert (Hi' : String.prefix (String c rest) "initiation.radiant_point" = true)
      by (apply Hi; cbn; tauto).
    assert (Hf' : String.prefix (String c rest) "fireball.plasma_core" = true)
      by (apply Hf; cbn; tauto).
    cbn [String.prefix] in Hi', Hf'.
    destruct (ascii_dec c "i"%char) as [->|]; [|discriminate Hi'].
    discriminate Hf'.
  - intros [H|H]; destruct params as [f]; cbn [phase_filter] in H; subst f;
      reflexivity.
Qed.

(** X17. Filtering by a full identifier lists that phase form alone (no
    identifier is a prefix of another), and filtering by a group name lists
    exactly the phase forms of that group. *)
Theorem listing_by_identifier_or_group (pf : PhaseForm) :
  list_phase_forms {| phase_filter := Some (value pf) |} = listing [pf]
  /\ list_phase_forms {| phase_filter := Some (group_segment (value pf)) |}
     = listing
         (filter
            (fun q =>
               String.eqb (group_segment (value q)) (group_segment (value pf)))
            members).
Proof.
  destruct pf; split; vm_compute; reflexivity.
Qed.

(** X18. The filter is case-insensitive: two filters that differ only in letter
    case give the same listing. *)
Theorem listing_ignores_filter_case (f g : string) :
  PyStr.lower f = PyStr.lower g ->
  list_phase_forms {| phase_filter := Some f |}
  = list_phase_forms {| phase_filter := Some g |}.
Proof.
  intros H. rewrite !list_phase_forms_as_filter. f_equal.
  apply filter_ext. intros pf.
  rewrite !passes_filter_startswith, H. reflexivity.
Qed.

Lemma listing_ignores_filter_case_witness :
  PyStr.lower "SHOCK" = PyStr.lower "shock"
  /\ list_phase_forms {| phase_filter := Some "SHOCK" |}
     = list_phase_forms {| phase_filter := Some "shock" |}.
Proof.
  split.
  - reflexivity.
  - apply (listing_ignores_filter_case "SHOCK" "shock"). reflexivity.
Defined.

(** X19. The modifier tables are in step with the enumerations: the option keys
    [list_modifiers] shows for a dimension are the identifiers
    [get_phase_form_details] offers for it, in the same order; every member
    finds its own record there, and every record has five fields. *)
Theorem modifier_options_match_enumerations (pf : PhaseForm) :
  let details := get_phase_form_details pf in
  exists scales environments eras affects,
    obj_path list_modifiers ["scale"; "options"] = Ok (PDict scales)
    /\ obj_path list_modifiers ["environment"; "options"]
       = Ok (PDict environments)
    /\ obj_path list_modifiers ["era"; "options"] = Ok (PDict eras)
    /\ obj_path list_modifiers ["affect"; "options"] = Ok (PDict affects)
    /\ obj_path details ["compatible_modifiers"; "scales"]
       = Ok (of_strings (dict_keys scales))
    /\ obj_path details ["compatible_modifiers"; "environments"]
       = Ok (of_strings (dict_keys environments))
    /\ obj_path details ["compatible_modifiers"; "eras"]
       = Ok (of_strings (dict_keys eras))
    /\ obj_path details ["compatible_modifiers"; "affects"]
       = Ok (of_strings (dict_keys affects))
    /\ (forall s : Scale,
          dict_lookup (value s) scales
          = Some (of_record (record_of SCALE_MODIFIERS s)))
    /\ (forall e : Environment,
          dict_lookup (value e) environments
          = Some (of_record (record_of ENVIRONMENT_MODIFIERS e)))
    /\ (forall r : Era,
          dict_lookup (value r) eras
          = Some (of_record (record_of ERA_MODIFIERS r)))
    /\ (forall a : Affect,
          dict_lookup (value a) affects
          = Some (of_record (record_of AFFECT_MODIFIERS a)))
    /\ Forall (fun kv => length (obj_keys (snd kv)) = 5)
         (scales ++ environments ++ eras ++ affects).
Proof.
  intros details. subst details.
  do 4 eexists.
  do 4 (split; [vm_compute; reflexivity|]).
  do 4 (split; [reflexivity|]).
  do 4 (split; [intros []; reflexivity|]).
  repeat (constructor; [reflexivity|]). constructor.
Qed.

(* ================================================================== *)
(** ** Empty records *)
(* ================================================================== *)

(** X20. An empty era or affect record counts as no record: the guards test the
    record's truth value, so [{}] adds no key, no facet and no phrase. *)
Theorem empty_optional_record_is_no_record
    text key intrinsics scale_mods env_mods era_mods affect_mods :
  build_enhancement_output text key intrinsics scale_mods env_mods
    (Some []) affect_mods
  = build_enhancement_output text key intrinsics scale_mods env_mods
      None affect_mods
  /\ build_enhancement_output text key intrinsics scale_mods env_mods
       era_mods (Some [])
     = build_enhancement_output text key intrinsics scale_mods env_mods
         era_mods None.
Proof.
  split; reflexivity.
Qed.

Lemma string_append_assoc (a b c : string) :
  ((a ++ b) ++ c)%string = (a ++ (b ++ c))%string.
Proof.
  induction a as [|x a IH]; cbn [String.append].
  - reflexivity.
  - rewrite IH. reflexivity.
Qed.

(** X21. On the empty-record fallbacks the composer still returns: the colour
    temperature is the default 5500..6500, every other field of the four
    facets is null, [modifiers_applied] holds two empty records, and the
    phrase list is the three primary templates filled with "None", all of
    which the synthesized text carries.  Empty scale and environment records
    contribute no phrase. *)
Theorem composer_on_empty_records (text key : string) :
  exists out,
    build_enhancement_output text key [] [] [] None None = Ok out
    /\ obj_path out ["visual_parameters"]
       = Ok (PDict
               [ ("luminous",
                  PDict
                    [ ("regime", PNone);
                      ("color_temperature_k",
                       PDict [ ("min", PInt 5500); ("max", PInt 6500) ]);
                      ("luminosity", PNone);
                      ("contrast", PNone) ]);
                 ("morphological",
                  PDict [ ("form", PNone); ("key_visual", PNone) ]);
                 ("atmospheric", PDict [ ("state", PNone) ]);
                 ("temporal", PDict [ ("duration_reference", PNone) ]) ])
    /\ obj_path out ["modifiers_applied"]
       = Ok (PDict [ ("scale", PDict []); ("environment", PDict []) ])
    /\ obj_path out ["enhanced_prompt_elements"]
       = Ok (of_strings
               [ "nuclear explosion, None"; "None lighting"; "None morphology" ])
    /\ obj_path out ["synthesized_prompt"]
       = Ok (PStr (text
                   ++ ", nuclear explosion, None, None lighting, None morphology"))
    /\ obj_path out ["original_prompt"] = Ok (PStr text)
    /\ obj_path out ["phase_form"] = Ok (PStr key)
    /\ obj_keys out
       = [ "original_prompt"; "phase_form"; "enhanced_prompt_elements";
           "visual_parameters"; "modifiers_applied"; "synthesized_prompt" ].
Proof.
  eexists. split; [reflexivity|].
  do 3 (split; [reflexivity|]).
  split; [|repeat split; reflexivity].
  cbn -[String.append]. unfold PyStr.join. cbn [firstn String.concat].
  rewrite string_append_assoc. reflexivity.
Qed.

(* ================================================================== *)
(** ** ASCII text as an instance *)
(* ================================================================== *)

Lemma lower_lowers_ascii : lowers_ascii PyStr.lower.
Proof. intros s _. reflexivity. Qed.

(** With [PyStr.lower] for the builtin, the functions of [Module Unicode]
    are the ones given for ASCII text. *)
Lemma ascii_text_instance :
  (forall d,
     Unicode.match_description_to_phaseform PyStr.lower d
     = match_description_to_phaseform d)
  /\ (forall params,
        Unicode.suggest_phase_form PyStr.lower params
        = suggest_phase_form params)
  /\ (forall params,
        Unicode.list_phase_forms PyStr.lower params = list_phase_forms params).
Proof.
  split; [reflexivity|]. split; [reflexivity|].
  intros params. reflexivity.
Qed.
